(** * Session manager and gallery service of the content-gallery client

    A shallow embedding of [src/lib/auth-context.tsx],
    [src/components/auth/ProtectedRoute.tsx] and [src/lib/gallery-service.ts].

    The hosted backend (identity provider, profile store, gallery store) is
    an external collaborator: every request the client issues is answered by
    a [Supabase] record of responses, and every request is appended to a log
    so that "no store call was made" is a statement about that log.
    Asynchronous functions are computations in the [Async] monad: they thread
    the React state cell holding [AuthState] and the request log, and they
    complete either normally or by throwing a JavaScript value.  A state
    update made before a throw stays made, as in JavaScript.  Calls of
    [console.error] write to no state the functions read and are left out.
    An asynchronous function runs to its end before the next one starts;
    [updateProfile] then reads in [authState] what [prev] would hold.  The
    relation [written] drops that assumption: it lets the writes of
    different operations come in any order. *)

From Stdlib Require Import String Ascii List Bool ZArith QArith Lia.
Import ListNotations.
Local Close Scope Q_scope.
Local Open Scope Z_scope.
Local Open Scope string_scope.

(* ===================================================================== *)
(** ** Thrown values *)
(* ===================================================================== *)

(** The run-time class of a thrown value, as far as [instanceof] can tell:
    [AuthError] extends [Error]; a store error may be a plain object. *)
Inductive ErrorClass : Type :=
| IsAuthError
| IsError
| IsPlainObject.

Record JsError : Type := mkJsError {
  err_class : ErrorClass;
  err_message : string;
  err_code : option string
}.

Definition instanceof_Error (e : JsError) : bool :=
  match err_class e with
  | IsAuthError | IsError => true
  | IsPlainObject => false
  end.

Definition instanceof_AuthError (e : JsError) : bool :=
  match err_class e with
  | IsAuthError => true
  | IsError | IsPlainObject => false
  end.

(** [new Error(msg)] *)
Definition new_Error (msg : string) : JsError :=
  {| err_class := IsError; err_message := msg; err_code := None |}.

(** Truthiness of a JavaScript string: every string but the empty one. *)
Definition truthy_string (s : string) : bool :=
  match s with
  | EmptyString => false
  | String _ _ => true
  end.

(* ===================================================================== *)
(** ** Data model *)
(* ===================================================================== *)

Record User : Type := mkUser {
  user_id : string;
  user_email : option string
}.

(** [Session] of the identity provider's SDK: [expires_at] is the optional
    expiry in epoch seconds, [user] is never null. *)
Record Session : Type := mkSession {
  access_token : string;
  expires_at : option Z;
  session_user : User
}.

(** A row of [public.profiles] (columns of the migration). *)
Record Profile : Type := mkProfile {
  profile_id : string;
  username : option string;
  avatar_url : option string
}.

(** [Partial<Profile>]: each field may be left out. *)
Record ProfileUpdates : Type := mkProfileUpdates {
  set_username : option (option string);
  set_avatar_url : option (option string)
}.

(** A gallery row, with the columns [createGallery] writes and reads. *)
Record Gallery : Type := mkGallery {
  gallery_id : string;
  gallery_user_id : string;
  gallery_name : string;
  gallery_description : string;
  gallery_category : string;
  gallery_is_public : bool
}.

Record GalleryInsert : Type := mkGalleryInsert {
  ins_user_id : string;
  ins_name : string;
  ins_description : string;
  ins_category : string;
  ins_is_public : bool
}.

(** [interface AuthState] *)
Record AuthState : Type := mkAuthState {
  user : option User;
  profile : option Profile;
  session : option Session;
  loading : bool;
  error : option string;
  isAuthenticated : bool
}.

(** The argument of [useState]. *)
Definition initialAuthState : AuthState :=
  {| user := None; profile := None; session := None;
     loading := true; error := None; isAuthenticated := false |}.

(** The object literal written on sign-out and when no session exists. *)
Definition signedOutState : AuthState :=
  {| user := None; profile := None; session := None;
     loading := false; error := None; isAuthenticated := false |}.

(** The object literal written once a session and its profile are known. *)
Definition signedInState (u : User) (p : option Profile) (s : Session) : AuthState :=
  {| user := Some u; profile := p; session := Some s;
     loading := false; error := None; isAuthenticated := true |}.

(* ===================================================================== *)
(** ** The backend as seen by the client *)
(* ===================================================================== *)

(** A promise settles: it is fulfilled with a value or rejected. *)
Inductive Settled (A : Type) : Type :=
| Fulfilled (a : A)
| Rejected (e : JsError).
Arguments Fulfilled {A} a.
Arguments Rejected {A} e.

(** [{ data, error }] of a [.single()] query. *)
Record SingleResponse (A : Type) : Type := mkSingle {
  data : option A;
  query_error : option JsError
}.
Arguments mkSingle {A} data query_error.
Arguments data {A} s.
Arguments query_error {A} s.

(** [{ data: { session }, error }] of [auth.getSession()]. *)
Record SessionResponse : Type := mkSessionResponse {
  gs_session : option Session;
  gs_error : option JsError
}.

(** [{ data: { user, session }, error }] of sign-in and sign-up. *)
Record AuthResponse : Type := mkAuthResponse {
  auth_user : option User;
  auth_session : option Session;
  auth_error : option JsError
}.

(** Every request the client can send. *)
Inductive Request : Type :=
| ReqGetSession
| ReqSelectProfile (userId : string)
| ReqSignInWithPassword (email password : string)
| ReqSignUp (email password uname : string)
| ReqSignOut
| ReqUpdateProfile (updates : ProfileUpdates) (userId : string)
| ReqSelectGalleryId (category : string)
| ReqGetUser
| ReqInsertGallery (row : GalleryInsert)
| ReqSelectGallery (category : string).

(** Requests that go to the database ([supabase.from(...)]) rather than to
    the identity provider ([supabase.auth]). *)
Definition is_store_request (r : Request) : bool :=
  match r with
  | ReqSelectProfile _ | ReqUpdateProfile _ _
  | ReqSelectGalleryId _ | ReqInsertGallery _ | ReqSelectGallery _ => true
  | ReqGetSession | ReqSignInWithPassword _ _ | ReqSignUp _ _ _
  | ReqSignOut | ReqGetUser => false
  end.

(** The answers of the backend, one field per request. *)
Record Supabase : Type := mkSupabase {
  auth_getSession : Settled SessionResponse;
  profiles_select : string -> Settled (SingleResponse Profile);
  auth_signInWithPassword : string -> string -> Settled AuthResponse;
  auth_signUp : string -> string -> string -> Settled AuthResponse;
  auth_signOut : Settled (option JsError);
  profiles_update : ProfileUpdates -> string -> Settled (SingleResponse Profile);
  galleries_select_id : string -> Settled (SingleResponse string);
  auth_getUser : Settled (option User);
  galleries_insert : GalleryInsert -> Settled (SingleResponse Gallery);
  galleries_select : string -> Settled (SingleResponse Gallery)
}.

(* ===================================================================== *)
(** ** The monad of asynchronous functions *)
(* ===================================================================== *)

(** What a computation can touch: the state cell and the request log
    (oldest request first). *)
Record Machine : Type := mkMachine {
  auth : AuthState;
  requests : list Request
}.

Inductive Completion (A : Type) : Type :=
| Normal (a : A)
| Throw (e : JsError).
Arguments Normal {A} a.
Arguments Throw {A} e.

Definition Async (A : Type) : Type := Machine -> Completion A * Machine.

Definition ret {A} (a : A) : Async A := fun m => (Normal a, m).

Definition bind {A B} (c : Async A) (k : A -> Async B) : Async B :=
  fun m =>
    match c m with
    | (Normal a, m') => k a m'
    | (Throw e, m') => (Throw e, m')
    end.

Definition throw {A} (e : JsError) : Async A := fun m => (Throw e, m).

(** [try { body } catch (e) { handler }] *)
Definition try_catch {A} (body : Async A) (handler : JsError -> Async A) : Async A :=
  fun m =>
    match body m with
    | (Normal a, m') => (Normal a, m')
    | (Throw e, m') => handler e m'
    end.

(** [await] of a request: the request is logged, then the promise settles. *)
Definition await {A} (r : Request) (answer : Settled A) : Async A :=
  fun m =>
    let m' := {| auth := auth m; requests := requests m ++ [r] |} in
    match answer with
    | Fulfilled a => (Normal a, m')
    | Rejected e => (Throw e, m')
    end.

(** [setAuthState(prev => f prev)]; a plain object [o] is [fun _ => o]. *)
Definition setAuthState (f : AuthState -> AuthState) : Async unit :=
  fun m => (Normal tt, {| auth := f (auth m); requests := requests m |}).

(** Reading [authState] in the body of the component. *)
Definition readAuthState : Async AuthState := fun m => (Normal (auth m), m).

(** [m] with request [r] added to the log. *)
Definition logged (r : Request) (m : Machine) : Machine :=
  {| auth := auth m; requests := requests m ++ [r] |}.

(** [m] with the state cell replaced. *)
Definition with_auth (st : AuthState) (m : Machine) : Machine :=
  {| auth := st; requests := requests m |}.

(** [{ ...prev, error: msg }] *)
Definition with_error (msg : option string) (prev : AuthState) : AuthState :=
  {| user := user prev; profile := profile prev; session := session prev;
     loading := loading prev; error := msg;
     isAuthenticated := isAuthenticated prev |}.

Module AsyncNotation.
Notation "x <- c1 ;; c2" := (bind c1 (fun x => c2))
  (at level 61, c1 at next level, right associativity).
Notation "c1 ;;; c2" := (bind c1 (fun _ => c2))
  (at level 61, right associativity).
End AsyncNotation.
Import AsyncNotation.

(* ===================================================================== *)
(** ** [auth-context.tsx] *)
(* ===================================================================== *)

Section AuthProvider.

Variable supabase : Supabase.

(** [fetchProfile]: the catch block logs and rethrows. *)
Definition fetchProfile (userId : string) : Async (option Profile) :=
  try_catch
    (r <- await (ReqSelectProfile userId) (profiles_select supabase userId) ;;
     match query_error r with
     | Some e => throw e
     | None => ret (data r)
     end)
    (fun e => throw e).

Definition initMessage (err : JsError) : string :=
  if instanceof_Error err then err_message err
  else "Authentication initialization failed".

(** [initializeAuth], the restore operation run by the effect. *)
Definition initializeAuth : Async unit :=
  try_catch
    (r <- await ReqGetSession (auth_getSession supabase) ;;
     match gs_error r with
     | Some sessionError => throw sessionError
     | None =>
         match gs_session r with
         | Some s =>
             p <- fetchProfile (user_id (session_user s)) ;;
             setAuthState (fun _ => signedInState (session_user s) p s)
         | None => setAuthState (fun _ => signedOutState)
         end
     end)
    (fun err =>
       setAuthState (fun prev =>
         {| user := user prev; profile := profile prev; session := session prev;
            loading := false;
            error := Some (initMessage err);
            isAuthenticated := false |})).

(** The callback given to [onAuthStateChange]; it has no catch block. *)
Definition onAuthStateChange (s : option Session) : Async unit :=
  match s with
  | Some s =>
      p <- fetchProfile (user_id (session_user s)) ;;
      setAuthState (fun _ => signedInState (session_user s) p s)
  | None => setAuthState (fun _ => signedOutState)
  end.

Definition signInMessage (e : JsError) : string :=
  if instanceof_AuthError e then err_message e
  else "Failed to sign in. Please check your credentials and try again.".

Definition signIn (email password : string) : Async unit :=
  try_catch
    (r <- await (ReqSignInWithPassword email password)
                (auth_signInWithPassword supabase email password) ;;
     match auth_error r with
     | Some e => throw e
     | None =>
         match auth_session r with
         | None => throw (new_Error "No session created after sign in")
         | Some s =>
             p <- fetchProfile (user_id (session_user s)) ;;
             setAuthState (fun _ => signedInState (session_user s) p s)
         end
     end)
    (fun e =>
       setAuthState (fun prev =>
         {| user := user prev; profile := profile prev; session := session prev;
            loading := loading prev;
            error := Some (signInMessage e);
            isAuthenticated := false |}) ;;;
       throw e).

Definition signUpMessage (e : JsError) : string :=
  if instanceof_AuthError e then err_message e
  else "Registration failed. Please try again.".

(** Reading [.id] of a null [data.user] *)
Definition null_property_read : JsError :=
  {| err_class := IsError;
     err_message := "Cannot read properties of null (reading 'id')";
     err_code := None |}.

Definition signUp (email password uname : string) : Async unit :=
  try_catch
    (r <- await (ReqSignUp email password uname)
                (auth_signUp supabase email password uname) ;;
     match auth_error r with
     | Some e => throw e
     | None =>
         match auth_session r with
         | None =>
             throw (new_Error "Email confirmation required. Please check your inbox.")
         | Some s =>
             match auth_user r with
             | None => throw null_property_read
             | Some u =>
                 p <- fetchProfile (user_id u) ;;
                 setAuthState (fun _ => signedInState u p s)
             end
         end
     end)
    (fun e =>
       setAuthState (fun prev =>
         {| user := user prev; profile := profile prev; session := session prev;
            loading := loading prev;
            error := Some (signUpMessage e);
            isAuthenticated := false |}) ;;;
       throw e).

Definition signOutMessage (e : JsError) : string :=
  if instanceof_AuthError e then err_message e
  else "Failed to sign out. Please try again.".

Definition signOut : Async unit :=
  try_catch
    (r <- await ReqSignOut (auth_signOut supabase) ;;
     match r with
     | Some e => throw e
     | None => setAuthState (fun _ => signedOutState)
     end)
    (fun e =>
       setAuthState (fun prev =>
         {| user := user prev; profile := profile prev; session := session prev;
            loading := loading prev;
            error := Some (signOutMessage e);
            isAuthenticated := isAuthenticated prev |}) ;;;
       throw e).

Definition updateProfileMessage (e : JsError) : string :=
  if instanceof_Error e then err_message e
  else "Failed to update profile. Please try again.".

Definition updateProfile (updates : ProfileUpdates) : Async unit :=
  authState <- readAuthState ;;
  match user authState with
  | None => throw (new_Error "No authenticated user")
  | Some u =>
      try_catch
        (r <- await (ReqUpdateProfile updates (user_id u))
                    (profiles_update supabase updates (user_id u)) ;;
         match query_error r with
         | Some e => throw e
         | None =>
             setAuthState (fun prev =>
               {| user := user prev; profile := data r; session := session prev;
                  loading := loading prev;
                  error := None;
                  isAuthenticated := isAuthenticated prev |})
         end)
        (fun e =>
           setAuthState (fun prev =>
             {| user := user prev; profile := profile prev; session := session prev;
                loading := loading prev;
                error := Some (updateProfileMessage e);
                isAuthenticated := isAuthenticated prev |}) ;;;
           throw e)
  end.

Definition clearError : Async unit :=
  setAuthState (fun prev =>
    {| user := user prev; profile := profile prev; session := session prev;
       loading := loading prev;
       error := None;
       isAuthenticated := isAuthenticated prev |}).

End AuthProvider.

(* ===================================================================== *)
(** ** [ProtectedRoute.tsx] *)
(* ===================================================================== *)

(** [session.expires_at && Date.now() / 1000 >= session.expires_at].
    [now_ms] is [Date.now()], in milliseconds; the quotient is taken in the
    rationals.  An absent [expires_at] and the number [0] are both falsy, so
    the comparison is not reached for them. *)
Definition sessionExpired (now_ms : Z) (s : Session) : bool :=
  match expires_at s with
  | None => false
  | Some e =>
      if Z.eqb e 0 then false
      else Qle_bool (inject_Z e) (now_ms # 1000)%Q
  end.

(** What the route renders. *)
Inductive Rendered : Type :=
| Spinner
| ErrorPanel (message : string)
| NavigateToLogin (message : string)
| Children.

(** [if (error)]: null and the empty string are both falsy. *)
Definition error_shown (st : AuthState) : option string :=
  match error st with
  | Some msg => if truthy_string msg then Some msg else None
  | None => None
  end.

Definition ProtectedRoute (now_ms : Z) (st : AuthState) : Rendered :=
  if loading st then Spinner
  else
    match error_shown st with
    | Some msg => ErrorPanel msg
    | None =>
        match isAuthenticated st, session st with
        | true, Some s =>
            if sessionExpired now_ms s
            then NavigateToLogin "Your session has expired. Please sign in again."
            else Children
        | _, _ => NavigateToLogin "Please sign in to access this page"
        end
    end.

(* ===================================================================== *)
(** ** Regular expressions, as far as the category check needs them *)
(* ===================================================================== *)

Module Regex.

(** A character class is a list of inclusive ranges. *)
Definition CharClass : Type := list (ascii * ascii).

Definition in_range (c : ascii) (r : ascii * ascii) : bool :=
  (nat_of_ascii (fst r) <=? nat_of_ascii c)%nat
  && (nat_of_ascii c <=? nat_of_ascii (snd r))%nat.

Definition in_class (cls : CharClass) (c : ascii) : bool :=
  existsb (in_range c) cls.

Inductive t : Type :=
| Never
| Empty
| Class (cls : CharClass)
| Alt (r1 r2 : t)
| Cat (r1 r2 : t)
| Star (r : t).

(** [r+] *)
Definition Plus (r : t) : t := Cat r (Star r).

(** The language of a regular expression. *)
Inductive Matches : t -> list ascii -> Prop :=
| MEmpty : Matches Empty []
| MClass cls c : in_class cls c = true -> Matches (Class cls) [c]
| MAltL r1 r2 w : Matches r1 w -> Matches (Alt r1 r2) w
| MAltR r1 r2 w : Matches r2 w -> Matches (Alt r1 r2) w
| MCat r1 r2 w1 w2 : Matches r1 w1 -> Matches r2 w2 -> Matches (Cat r1 r2) (w1 ++ w2)
| MStarNil r : Matches (Star r) []
| MStarApp r w1 w2 : Matches r w1 -> Matches (Star r) w2 -> Matches (Star r) (w1 ++ w2).

Fixpoint nullable (r : t) : bool :=
  match r with
  | Never => false
  | Empty => true
  | Class _ => false
  | Alt r1 r2 => nullable r1 || nullable r2
  | Cat r1 r2 => nullable r1 && nullable r2
  | Star _ => true
  end.

(** Brzozowski derivative. *)
Fixpoint deriv (c : ascii) (r : t) : t :=
  match r with
  | Never => Never
  | Empty => Never
  | Class cls => if in_class cls c then Empty else Never
  | Alt r1 r2 => Alt (deriv c r1) (deriv c r2)
  | Cat r1 r2 =>
      if nullable r1
      then Alt (Cat (deriv c r1) r2) (deriv c r2)
      else Cat (deriv c r1) r2
  | Star r1 => Cat (deriv c r1) (Star r1)
  end.

Fixpoint accepts (r : t) (w : list ascii) : bool :=
  match w with
  | [] => nullable r
  | c :: w' => accepts (deriv c r) w'
  end.

(** [/^r$/.test(s)]: without the [m] flag the anchors are the two ends of
    the input, so the whole string has to be in the language of [r]. *)
Definition test_anchored (r : t) (s : string) : bool :=
  accepts r (list_ascii_of_string s).

End Regex.

(* ===================================================================== *)
(** ** [gallery-service.ts] *)
(* ===================================================================== *)

(** The class [[a-z0-9-]] and the pattern [[a-z0-9-]+] between [^] and [$]. *)
Definition category_class : Regex.CharClass :=
  [("a"%char, "z"%char); ("0"%char, "9"%char); ("-"%char, "-"%char)].

Definition category_pattern : Regex.t := Regex.Plus (Regex.Class category_class).

Definition category_format_message : string :=
  "Category can only contain lowercase letters, numbers, and hyphens".

Definition category_exists_message : string :=
  "A gallery with this category already exists. Please choose a different category.".

Section GalleryService.

Variable supabase : Supabase.

(** [return data]: the row as the store delivered it. *)
Definition createGallery (name description category : string) (isPublic : bool)
  : Async (option Gallery) :=
  if negb (Regex.test_anchored category_pattern category)
  then throw (new_Error category_format_message)
  else
    existing <- await (ReqSelectGalleryId category)
                      (galleries_select_id supabase category) ;;
    match data existing with
    | Some _ => throw (new_Error category_exists_message)
    | None =>
        u <- await ReqGetUser (auth_getUser supabase) ;;
        match u with
        | None => throw (new_Error "User must be logged in to create a gallery")
        | Some u =>
            let row := {| ins_user_id := user_id u; ins_name := name;
                          ins_description := description;
                          ins_category := category;
                          ins_is_public := isPublic |} in
            try_catch
              (r <- await (ReqInsertGallery row) (galleries_insert supabase row) ;;
               match query_error r with
               | Some e =>
                   match err_code e with
                   | Some code =>
                       if String.eqb code "23505"
                       then throw (new_Error category_exists_message)
                       else throw e
                   | None => throw e
                   end
               | None => ret (data r)
               end)
              (fun e => throw e)
        end
    end.

Definition getGalleryByCategory (category : string) : Async (option Gallery) :=
  r <- await (ReqSelectGallery category) (galleries_select supabase category) ;;
  match query_error r with
  | Some e =>
      match err_code e with
      | Some code => if String.eqb code "PGRST116" then ret None else throw e
      | None => throw e
      end
  | None => ret (data r)
  end.

End GalleryService.

(* ===================================================================== *)
(** ** [CreateGalleryPage.tsx] *)
(* ===================================================================== *)

(** The three state cells of the page and the place [navigate] last sent
    the browser to.  A string is the sequence of its code units and
    [String.length] counts them, as [.length] does. *)
Record FormData : Type := mkFormData {
  form_name : string;
  form_description : string;
  form_category : string;
  form_isPublic : bool
}.

Record PageState : Type := mkPageState {
  formData : FormData;
  page_error : option string;
  isLoading : bool;
  navigated : option string
}.

Definition setError (e : option string) (p : PageState) : PageState :=
  {| formData := formData p; page_error := e;
     isLoading := isLoading p; navigated := navigated p |}.

Definition setIsLoading (b : bool) (p : PageState) : PageState :=
  {| formData := formData p; page_error := page_error p;
     isLoading := b; navigated := navigated p |}.

Definition navigate (target : string) (p : PageState) : PageState :=
  {| formData := formData p; page_error := page_error p;
     isLoading := isLoading p; navigated := Some target |}.

Definition name_length_message : string :=
  "Gallery name must be at least 3 characters long".

Definition category_length_message : string :=
  "Category must be at least 3 characters long".

(** [validateForm]: the value returned, and the page after the [setError]
    of the branch taken. *)
Definition validateForm (p : PageState) : bool * PageState :=
  if (String.length (form_name (formData p)) <? 3)%nat
  then (false, setError (Some name_length_message) p)
  else if (String.length (form_category (formData p)) <? 3)%nat
  then (false, setError (Some category_length_message) p)
  else if negb (Regex.test_anchored category_pattern (form_category (formData p)))
  then (false, setError (Some category_format_message) p)
  else (true, p).

Definition submitMessage (err : JsError) : string :=
  if instanceof_Error err then err_message err else "Failed to create gallery".

Section CreateGalleryPage.

Variable supabase : Supabase.

(** [String.prototype.toLowerCase], a built-in of the language. *)
Variable toLowerCase : string -> string.

(** [handleSubmit]: the page and the machine after the handler has run. *)
Definition handleSubmit (p : PageState) (m : Machine) : PageState * Machine :=
  let (valid, p1) := validateForm p in
  if negb valid then (p1, m)
  else
    let p2 := setError None (setIsLoading true p1) in
    match createGallery supabase
            (form_name (formData p))
            (form_description (formData p))
            (toLowerCase (form_category (formData p)))
            (form_isPublic (formData p)) m with
    | (Normal _, m') =>
        (setIsLoading false (navigate "/dashboard/galleries" p2), m')
    | (Throw err, m') =>
        (setIsLoading false (setError (Some (submitMessage err)) p2), m')
    end.

End CreateGalleryPage.

(** A lower-casing of the letters A to Z that leaves every other code unit
    alone; it is what [toLowerCase] does on the code units below 128. *)
Definition lower_ascii (c : ascii) : ascii :=
  let n := nat_of_ascii c in
  if ((65 <=? n) && (n <=? 90))%nat then ascii_of_nat (n + 32) else c.

Fixpoint lower_string (s : string) : string :=
  match s with
  | EmptyString => EmptyString
  | String c s' => String (lower_ascii c) (lower_string s')
  end.

(* ===================================================================== *)
(** ** The session manager as a transition system *)
(* ===================================================================== *)

(** The ways [AuthState] can change: the effect's restore, a notification
    of the provider, and the five functions handed to the context. *)
Inductive Operation : Type :=
| RestoreAtStart
| ProviderNotification (s : option Session)
| SignIn (email password : string)
| SignUp (email password uname : string)
| SignOut
| UpdateProfile (updates : ProfileUpdates)
| ClearError.

Definition perform (supabase : Supabase) (op : Operation) : Async unit :=
  match op with
  | RestoreAtStart => initializeAuth supabase
  | ProviderNotification s => onAuthStateChange supabase s
  | SignIn email password => signIn supabase email password
  | SignUp email password uname => signUp supabase email password uname
  | SignOut => signOut supabase
  | UpdateProfile updates => updateProfile supabase updates
  | ClearError => clearError
  end.

(** The state cell after an operation has run against a backend. *)
Definition after (supabase : Supabase) (op : Operation) (st : AuthState) : AuthState :=
  auth (snd (perform supabase op {| auth := st; requests := [] |})).

Inductive reachable : AuthState -> Prop :=
| reachable_initial : reachable initialAuthState
| reachable_step st supabase op :
    reachable st -> reachable (after supabase op st).

(* ===================================================================== *)
(** ** The specification's words, for comparison with the code *)
(* ===================================================================== *)

(** "expired <=> current time >= expiry", the current time being
    [Date.now() / 1000] seconds. *)
Definition spec_expired (now_ms : Z) (expiry : Z) : bool :=
  Qle_bool (inject_Z expiry) (now_ms # 1000)%Q.

(** "isAuthenticated is true if and only if both Identity and Session are
    present and Session is not expired." *)
Definition spec_isAuthenticated (now_ms : Z) (st : AuthState) : bool :=
  match user st, session st with
  | Some _, Some s =>
      match expires_at s with
      | Some e => negb (spec_expired now_ms e)
      | None => true
      end
  | _, _ => false
  end.

(** "a generic credential-failure message" *)
Definition signIn_generic_message : string :=
  "Failed to sign in. Please check your credentials and try again.".

(** A fetch of the profile of [userId] fails with [e]: the query answers
    with an error, or the request itself is rejected. *)
Definition profile_fetch_fails (supabase : Supabase) (userId : string) (e : JsError) : Prop :=
  (exists d, profiles_select supabase userId = Fulfilled (mkSingle d (Some e)))
  \/ profiles_select supabase userId = Rejected e.

(** An identity is present but its profile is not. *)
Definition half_authenticated (st : AuthState) : Prop :=
  user st <> None /\ profile st = None.

(** The part of the specification's invariant that the code keeps: the
    flag is raised only together with an identity and a session. *)
Definition flag_backed (st : AuthState) : Prop :=
  isAuthenticated st = true -> user st <> None /\ session st <> None.

(** [{ ...prev, error: msg, isAuthenticated: false }] *)
Definition with_error_lowered (msg : string) (prev : AuthState) : AuthState :=
  {| user := user prev; profile := profile prev; session := session prev;
     loading := loading prev; error := Some msg; isAuthenticated := false |}.

(** [{ ...prev, loading: false, error: msg, isAuthenticated: false }] *)
Definition with_error_settled (msg : string) (prev : AuthState) : AuthState :=
  {| user := user prev; profile := profile prev; session := session prev;
     loading := false; error := Some msg; isAuthenticated := false |}.

(** [{ ...prev, profile: p, error: null }] *)
Definition with_profile (p : option Profile) (prev : AuthState) : AuthState :=
  {| user := user prev; profile := p; session := session prev;
     loading := loading prev; error := None;
     isAuthenticated := isAuthenticated prev |}.

(** The shapes an operation can give to the state cell, with the way it
    completes: one constructor per [setAuthState] of the source, and one
    for the paths that throw before any. *)
Inductive Effect (prev : AuthState) : Completion unit -> AuthState -> Prop :=
| EffSignedIn u p s : Effect prev (Normal tt) (signedInState u p s)
| EffSignedOut : Effect prev (Normal tt) signedOutState
| EffSettled msg : Effect prev (Normal tt) (with_error_settled msg prev)
| EffProfile u p : user prev = Some u -> Effect prev (Normal tt) (with_profile p prev)
| EffCleared : Effect prev (Normal tt) (with_error None prev)
| EffUntouched e : Effect prev (Throw e) prev
| EffLowered e msg : Effect prev (Throw e) (with_error_lowered msg prev)
| EffError e msg : Effect prev (Throw e) (with_error (Some msg) prev).

(** A restore, a sign-in or a sign-up that did not get its session and
    profile fails with [e] for one of these reasons. *)
Definition request_failed {A} (answer : Settled A) (err_of : A -> option JsError)
  (e : JsError) : Prop :=
  answer = Rejected e \/ exists a, answer = Fulfilled a /\ err_of a = Some e.

(** What makes [signIn] fail, and with which value, told from the answers
    of the backend alone: the sign-in request is rejected; the provider
    answers with an error; it answers with neither error nor session; or
    it hands out a session and the fetch of the profile fails. *)
Definition signIn_fails_with (supabase : Supabase) (email password : string)
  (e : JsError) : Prop :=
  auth_signInWithPassword supabase email password = Rejected e
  \/ (exists r, auth_signInWithPassword supabase email password = Fulfilled r /\
                auth_error r = Some e)
  \/ (exists r, auth_signInWithPassword supabase email password = Fulfilled r /\
                auth_error r = None /\ auth_session r = None /\
                e = new_Error "No session created after sign in")
  \/ (exists r s, auth_signInWithPassword supabase email password = Fulfilled r /\
                  auth_error r = None /\ auth_session r = Some s /\
                  profile_fetch_fails supabase (user_id (session_user s)) e).

(** One call of [setAuthState], applied to the state current at that
    moment.  The constructors are the calls of the source: the signed-in
    literal (l.45, 80, 130, 168), the signed-out literal (l.54, 89, 195),
    the updater of the restore's catch (l.65), the updater of the catch of
    [signIn] and [signUp] (l.143, 181), the updaters that write [error]
    only (l.208, 241, 250) and the updater that installs a profile
    (l.231).  An asynchronous function computes the arguments before it
    suspends and writes after it resumes, so between its reads and its
    write other writes may come; [prev] is whatever they left. *)
Inductive Write (prev : AuthState) : AuthState -> Prop :=
| WriteSignedIn u p s : Write prev (signedInState u p s)
| WriteSignedOut : Write prev signedOutState
| WriteSettled msg : Write prev (with_error_settled msg prev)
| WriteLowered msg : Write prev (with_error_lowered msg prev)
| WriteError msg : Write prev (with_error msg prev)
| WriteProfile p : Write prev (with_profile p prev).

(** The states the cell can hold after any sequence of such calls, in any
    order: every interleaving of the operations is one such sequence. *)
Inductive written : AuthState -> Prop :=
| written_initial : written initialAuthState
| written_step prev st : written prev -> Write prev st -> written st.

(** What every single write keeps. *)
Definition coherent (st : AuthState) : Prop :=
  (user st = None <-> session st = None) /\
  (isAuthenticated st = true -> user st <> None /\ session st <> None) /\
  (isAuthenticated st = true -> loading st = false).

(* ===================================================================== *)
(** ** A concrete user, session and some backends *)
(* ===================================================================== *)

Module Scenario.

Definition alice : User := {| user_id := "u1"; user_email := Some "a@b.com" |}.

(** 2026-01-01T00:00:00Z in milliseconds, and a session good for an hour
    after it. *)
Definition now_ms : Z := 1767225600000.

Definition fresh_session : Session :=
  {| access_token := "token-1"; expires_at := Some 1767229200; session_user := alice |}.

(** The same session with an expiry one hour before [now_ms]. *)
Definition stale_session : Session :=
  {| access_token := "token-0"; expires_at := Some 1767222000; session_user := alice |}.

(** A session whose expiry is the number zero. *)
Definition epoch_session : Session :=
  {| access_token := "token-e"; expires_at := Some 0; session_user := alice |}.

Definition alice_profile : Profile :=
  {| profile_id := "u1"; username := Some "alice"; avatar_url := None |}.

Definition invalid_credentials : JsError :=
  {| err_class := IsAuthError; err_message := "Invalid login credentials";
     err_code := Some "invalid_credentials" |}.

(** An [AuthError] that carries no text. *)
Definition silent_auth_error : JsError :=
  {| err_class := IsAuthError; err_message := ""; err_code := None |}.

Definition network_down : JsError :=
  {| err_class := IsError; err_message := "Failed to fetch"; err_code := None |}.

Definition no_rows : JsError :=
  {| err_class := IsPlainObject;
     err_message := "JSON object requested, multiple (or no) rows returned";
     err_code := Some "PGRST116" |}.

Definition permission_denied : JsError :=
  {| err_class := IsPlainObject;
     err_message := "permission denied for table galleries";
     err_code := Some "42501" |}.

(** A backend on which every request fails with [network_down]. *)
Definition offline : Supabase :=
  {| auth_getSession := Rejected network_down;
     profiles_select := fun _ => Rejected network_down;
     auth_signInWithPassword := fun _ _ => Rejected network_down;
     auth_signUp := fun _ _ _ => Rejected network_down;
     auth_signOut := Rejected network_down;
     profiles_update := fun _ _ => Rejected network_down;
     galleries_select_id := fun _ => Rejected network_down;
     auth_getUser := Rejected network_down;
     galleries_insert := fun _ => Rejected network_down;
     galleries_select := fun _ => Rejected network_down |}.

(** A backend that holds session [s] for alice and serves her profile;
    it accepts the password "validpass" only. *)
Definition serving (s : Session) : Supabase :=
  {| auth_getSession := Fulfilled (mkSessionResponse (Some s) None);
     profiles_select := fun _ => Fulfilled (mkSingle (Some alice_profile) None);
     auth_signInWithPassword := fun _ password =>
       if String.eqb password "validpass"
       then Fulfilled (mkAuthResponse (Some alice) (Some s) None)
       else Fulfilled (mkAuthResponse None None (Some invalid_credentials));
     auth_signUp := fun _ _ _ =>
       Fulfilled (mkAuthResponse (Some alice) None None);
     auth_signOut := Fulfilled None;
     profiles_update := fun _ _ => Fulfilled (mkSingle (Some alice_profile) None);
     galleries_select_id := fun _ => Fulfilled (mkSingle None (Some no_rows));
     auth_getUser := Fulfilled (Some alice);
     galleries_insert := fun _ => Rejected network_down;
     galleries_select := fun _ => Fulfilled (mkSingle None (Some no_rows)) |}.

(** The provider still holds session [s], but the profile store is down. *)
Definition profiles_down (s : Session) : Supabase :=
  {| auth_getSession := Fulfilled (mkSessionResponse (Some s) None);
     profiles_select := fun _ => Rejected network_down;
     auth_signInWithPassword := fun _ _ =>
       Fulfilled (mkAuthResponse (Some alice) (Some s) None);
     auth_signUp := fun _ _ _ =>
       Fulfilled (mkAuthResponse (Some alice) (Some s) None);
     auth_signOut := Fulfilled None;
     profiles_update := fun _ _ => Rejected network_down;
     galleries_select_id := fun _ => Rejected network_down;
     auth_getUser := Fulfilled (Some alice);
     galleries_insert := fun _ => Rejected network_down;
     galleries_select := fun _ => Rejected network_down |}.

(** The provider answers a sign-in with neither a session nor an error. *)
Definition sessionless : Supabase :=
  {| auth_getSession := Fulfilled (mkSessionResponse None None);
     profiles_select := fun _ => Fulfilled (mkSingle (Some alice_profile) None);
     auth_signInWithPassword := fun _ _ =>
       Fulfilled (mkAuthResponse (Some alice) None None);
     auth_signUp := fun _ _ _ =>
       Fulfilled (mkAuthResponse (Some alice) None None);
     auth_signOut := Fulfilled (Some silent_auth_error);
     profiles_update := fun _ _ => Fulfilled (mkSingle (Some alice_profile) None);
     galleries_select_id := fun _ => Fulfilled (mkSingle None None);
     auth_getUser := Fulfilled None;
     galleries_insert := fun _ => Rejected network_down;
     galleries_select := fun _ => Fulfilled (mkSingle None (Some permission_denied)) |}.

(** The provider refuses every sign-in with an [AuthError] without text. *)
Definition refusing_silently : Supabase :=
  {| auth_getSession := Fulfilled (mkSessionResponse None None);
     profiles_select := fun _ => Fulfilled (mkSingle (Some alice_profile) None);
     auth_signInWithPassword := fun _ _ =>
       Fulfilled (mkAuthResponse None None (Some silent_auth_error));
     auth_signUp := fun _ _ _ =>
       Fulfilled (mkAuthResponse None None (Some silent_auth_error));
     auth_signOut := Fulfilled (Some silent_auth_error);
     profiles_update := fun _ _ => Fulfilled (mkSingle (Some alice_profile) None);
     galleries_select_id := fun _ => Fulfilled (mkSingle None None);
     auth_getUser := Fulfilled None;
     galleries_insert := fun _ => Rejected network_down;
     galleries_select := fun _ => Fulfilled (mkSingle None None) |}.

Definition start (st : AuthState) : Machine := {| auth := st; requests := [] |}.

End Scenario.

(** The value [signUp] throws when the provider wants the address
    confirmed first. *)
Definition confirmation_required : JsError :=
  new_Error "Email confirmation required. Please check your inbox.".

(** A backend that registers alice and hands out session [s] at once. *)
Definition registering (s : Session) : Supabase :=
  {| auth_getSession := Fulfilled (mkSessionResponse None None);
     profiles_select := fun _ =>
       Fulfilled (mkSingle (Some Scenario.alice_profile) None);
     auth_signInWithPassword := fun _ _ =>
       Fulfilled (mkAuthResponse (Some Scenario.alice) (Some s) None);
     auth_signUp := fun _ _ _ =>
       Fulfilled (mkAuthResponse (Some Scenario.alice) (Some s) None);
     auth_signOut := Fulfilled None;
     profiles_update := fun _ _ =>
       Fulfilled (mkSingle (Some Scenario.alice_profile) None);
     galleries_select_id := fun _ => Fulfilled (mkSingle None None);
     auth_getUser := Fulfilled (Some Scenario.alice);
     galleries_insert := fun row =>
       Fulfilled (mkSingle (Some {| gallery_id := "g1";
                                    gallery_user_id := ins_user_id row;
                                    gallery_name := ins_name row;
                                    gallery_description := ins_description row;
                                    gallery_category := ins_category row;
                                    gallery_is_public := ins_is_public row |})
                           None);
     galleries_select := fun _ => Fulfilled (mkSingle None None) |}.

(** A backend whose gallery table already has a row for every category. *)
Definition crowded : Supabase :=
  {| auth_getSession := Fulfilled (mkSessionResponse None None);
     profiles_select := fun _ => Rejected Scenario.network_down;
     auth_signInWithPassword := fun _ _ => Rejected Scenario.network_down;
     auth_signUp := fun _ _ _ => Rejected Scenario.network_down;
     auth_signOut := Fulfilled None;
     profiles_update := fun _ _ => Rejected Scenario.network_down;
     galleries_select_id := fun _ => Fulfilled (mkSingle (Some "g0") None);
     auth_getUser := Fulfilled (Some Scenario.alice);
     galleries_insert := fun _ =>
       Fulfilled (mkSingle None
                    (Some {| err_class := IsPlainObject;
                             err_message := "duplicate key value violates unique constraint";
                             err_code := Some "23505" |}));
     galleries_select := fun _ => Fulfilled (mkSingle None None) |}.

(** The same, but the lookup that precedes the insert misses the row. *)
Definition racing : Supabase :=
  {| auth_getSession := Fulfilled (mkSessionResponse None None);
     profiles_select := fun _ => Rejected Scenario.network_down;
     auth_signInWithPassword := fun _ _ => Rejected Scenario.network_down;
     auth_signUp := fun _ _ _ => Rejected Scenario.network_down;
     auth_signOut := Fulfilled None;
     profiles_update := fun _ _ => Rejected Scenario.network_down;
     galleries_select_id := fun _ => Fulfilled (mkSingle None (Some Scenario.no_rows));
     auth_getUser := Fulfilled (Some Scenario.alice);
     galleries_insert := fun _ =>
       Fulfilled (mkSingle None
                    (Some {| err_class := IsPlainObject;
                             err_message := "duplicate key value violates unique constraint";
                             err_code := Some "23505" |}));
     galleries_select := fun _ => Fulfilled (mkSingle None None) |}.

(** The row [createGallery] sends for user [u]. *)
Definition gallery_row (u : User) (name description category : string)
  (isPublic : bool) : GalleryInsert :=
  {| ins_user_id := user_id u; ins_name := name;
     ins_description := description; ins_category := category;
     ins_is_public := isPublic |}.

Definition login_required : JsError :=
  new_Error "User must be logged in to create a gallery".

(** What the insert's answer becomes: error code 23505 is replaced by the
    duplicate-category error, any other error is passed on. *)
Definition insert_completion (q : SingleResponse Gallery) : Completion (option Gallery) :=
  match query_error q with
  | None => Normal (data q)
  | Some e =>
      match err_code e with
      | Some code =>
          if String.eqb code "23505"
          then Throw (new_Error category_exists_message) else Throw e
      | None => Throw e
      end
  end.

(* ===================================================================== *)
(** * Properties *)
(* ===================================================================== *)

(** ** The derivative matcher decides the language *)

Module RegexFacts.
Import Regex.

Lemma nullable_sound r : nullable r = true -> Matches r [].
Proof.
  induction r; simpl; intros H; try discriminate.
  - constructor.
  - apply orb_true_iff in H. destruct H as [H | H].
    + apply MAltL; auto.
    + apply MAltR; auto.
  - apply andb_true_iff in H. destruct H as [H1 H2].
    apply (MCat _ _ [] []); auto.
  - constructor.
Qed.

Lemma nullable_complete r w : Matches r w -> w = [] -> nullable r = true.
Proof.
  induction 1; simpl; intros E; try reflexivity; try discriminate.
  - rewrite IHMatches by assumption. reflexivity.
  - rewrite IHMatches by assumption. apply orb_true_r.
  - apply app_eq_nil in E. destruct E as [E1 E2].
    rewrite IHMatches1, IHMatches2 by assumption. reflexivity.
Qed.

Lemma nullable_Matches r : nullable r = true <-> Matches r [].
Proof.
  split; [apply nullable_sound | intros H; eapply nullable_complete; eauto].
Qed.

(** A non-empty word of [r*] starts with a non-empty word of [r]. *)
Lemma Star_cons r c w :
  Matches (Star r) (c :: w) ->
  exists w1 w2, w = (w1 ++ w2)%list /\ Matches r (c :: w1) /\ Matches (Star r) w2.
Proof.
  intros H. remember (Star r) as sr eqn:Esr. remember (c :: w) as cw eqn:Ecw.
  revert r c w Esr Ecw.
  induction H; intros r0 c0 w0 Esr Ecw; try discriminate.
  injection Esr as ->.
  destruct w1 as [| a w1'].
  - simpl in Ecw. eapply IHMatches2; eauto.
  - simpl in Ecw. injection Ecw as Ea Ew. subst.
    exists w1', w2. auto.
Qed.

Lemma deriv_Matches c r : forall w, Matches (deriv c r) w <-> Matches r (c :: w).
Proof.
  induction r; intros w; simpl.
  - split; intros H; inversion H.
  - split; intros H; inversion H.
  - destruct (in_class cls c) eqn:E; split; intros H.
    + inversion H; subst. constructor. assumption.
    + inversion H; subst. constructor.
    + inversion H.
    + inversion H; subst. congruence.
  - split; intros H; inversion H; subst.
    + apply MAltL. apply IHr1. assumption.
    + apply MAltR. apply IHr2. assumption.
    + apply MAltL. apply IHr1. assumption.
    + apply MAltR. apply IHr2. assumption.
  - assert (Hcat : forall v, Matches (Cat (deriv c r1) r2) v -> Matches (Cat r1 r2) (c :: v)).
    { intros v Hv. inversion Hv; subst.
      change (c :: w1 ++ w2)%list with ((c :: w1) ++ w2)%list.
      constructor; [apply IHr1 |]; assumption. }
    destruct (nullable r1) eqn:En; split; intros H.
    + inversion H; subst.
      * apply Hcat. assumption.
      * change (c :: w) with ([] ++ c :: w)%list. constructor.
        -- apply nullable_Matches. assumption.
        -- apply IHr2. assumption.
    + inversion H; subst.
      destruct w1 as [| a w1'].
      * simpl in *. subst. apply MAltR. apply IHr2. assumption.
      * simpl in *. match goal with E : _ :: _ = _ :: _ |- _ => injection E as Ea Ew end. subst.
        apply MAltL. constructor; [apply IHr1 |]; assumption.
    + apply Hcat. assumption.
    + inversion H; subst.
      destruct w1 as [| a w1'].
      * apply nullable_Matches in H3. congruence.
      * simpl in *. match goal with E : _ :: _ = _ :: _ |- _ => injection E as Ea Ew end. subst.
        constructor; [apply IHr1 |]; assumption.
  - split; intros H.
    + inversion H; subst.
      change (c :: w1 ++ w2)%list with ((c :: w1) ++ w2)%list.
      apply MStarApp; [apply IHr |]; assumption.
    + apply Star_cons in H. destruct H as (w1 & w2 & -> & H1 & H2).
      constructor; [apply IHr |]; assumption.
Qed.

Lemma accepts_Matches w : forall r, accepts r w = true <-> Matches r w.
Proof.
  induction w as [| c w IH]; intros r; simpl.
  - apply nullable_Matches.
  - rewrite IH. apply deriv_Matches.
Qed.

Lemma Star_Class cls w :
  Matches (Star (Class cls)) w <-> Forall (fun c => in_class cls c = true) w.
Proof.
  split.
  - intros H. remember (Star (Class cls)) as sr eqn:E.
    induction H; try discriminate.
    + constructor.
    + injection E as ->. inversion H; subst. simpl.
      constructor; [assumption | apply IHMatches2; reflexivity].
  - induction 1 as [| c w Hc _ IH].
    + constructor.
    + change (c :: w) with ([c] ++ w)%list.
      constructor; [constructor |]; assumption.
Qed.

(** [cls+] matches exactly the non-empty words over [cls]. *)
Lemma Plus_Class cls w :
  Matches (Plus (Class cls)) w <->
  w <> [] /\ Forall (fun c => in_class cls c = true) w.
Proof.
  unfold Plus. split.
  - intros H. inversion H; subst.
    match goal with H1 : Matches (Class _) _ |- _ => inversion H1; subst end.
    simpl. split; [discriminate |].
    constructor; [assumption | apply Star_Class; assumption].
  - intros [Hne Hall]. destruct w as [| c w]; [congruence |].
    inversion Hall; subst.
    change (c :: w) with ([c] ++ w)%list.
    constructor; [constructor; assumption | apply Star_Class; assumption].
Qed.

Lemma list_ascii_of_string_nil s : list_ascii_of_string s = [] <-> s = "".
Proof. destruct s; simpl; split; intros H; congruence. Qed.

(** The anchored test of [cls+], in closed form. *)
Lemma test_anchored_Plus_Class cls s :
  test_anchored (Plus (Class cls)) s =
  truthy_string s && forallb (in_class cls) (list_ascii_of_string s).
Proof.
  unfold test_anchored.
  destruct (truthy_string s && forallb (in_class cls) (list_ascii_of_string s)) eqn:E.
  - apply accepts_Matches, Plus_Class.
    apply andb_true_iff in E. destruct E as [E1 E2]. split.
    + destruct s; simpl in *; discriminate.
    + apply Forall_forall. apply (proj1 (forallb_forall _ _) E2).
  - apply not_true_is_false. intros H.
    apply accepts_Matches, Plus_Class in H. destruct H as [Hne Hall].
    assert (E1 : truthy_string s = true).
    { destruct s; simpl in *; [congruence | reflexivity]. }
    assert (E2 : forallb (in_class cls) (list_ascii_of_string s) = true).
    { apply forallb_forall. apply (proj1 (Forall_forall _ _) Hall). }
    rewrite E1, E2 in E. discriminate.
Qed.

End RegexFacts.

(* ===================================================================== *)
(** ** Running the asynchronous functions *)
(* ===================================================================== *)

Ltac async_unfold :=
  unfold initializeAuth, onAuthStateChange, signIn, signUp, signOut,
    updateProfile, clearError, fetchProfile, createGallery,
    getGalleryByCategory, try_catch, bind, await, throw, ret,
    setAuthState, readAuthState, logged, with_auth, with_error in *.

Lemma fetchProfile_run supabase userId m :
  fetchProfile supabase userId m =
  match profiles_select supabase userId with
  | Fulfilled r =>
      match query_error r with
      | Some e => (Throw e, logged (ReqSelectProfile userId) m)
      | None => (Normal (data r), logged (ReqSelectProfile userId) m)
      end
  | Rejected e => (Throw e, logged (ReqSelectProfile userId) m)
  end.
Proof.
  async_unfold.
  destruct (profiles_select supabase userId) as [r | e]; [| reflexivity].
  destruct (query_error r); reflexivity.
Qed.

Lemma fetchProfile_fails supabase userId e m :
  profile_fetch_fails supabase userId e ->
  fetchProfile supabase userId m = (Throw e, logged (ReqSelectProfile userId) m).
Proof.
  intros [[d H] | H]; rewrite fetchProfile_run, H; reflexivity.
Qed.

(** The handler of provider notifications, when the profile fetch fails:
    the state cell is not written and the failure leaves the callback. *)
Lemma onAuthStateChange_fetch_failure supabase s e m :
  profile_fetch_fails supabase (user_id (session_user s)) e ->
  onAuthStateChange supabase (Some s) m
  = (Throw e, logged (ReqSelectProfile (user_id (session_user s))) m).
Proof.
  intros H. unfold onAuthStateChange, bind.
  rewrite (fetchProfile_fails _ _ _ _ H). reflexivity.
Qed.

(** The restore operation never throws. *)
Lemma initializeAuth_completes supabase m :
  fst (initializeAuth supabase m) = Normal tt.
Proof.
  unfold initializeAuth, try_catch, bind. unfold await at 1.
  destruct (auth_getSession supabase) as [r | e]; simpl; [| reflexivity].
  destruct (gs_error r); simpl; [reflexivity |].
  destruct (gs_session r) as [s |]; simpl; [| reflexivity].
  rewrite fetchProfile_run.
  destruct (profiles_select supabase _) as [q | e]; simpl; [| reflexivity].
  destruct (query_error q); reflexivity.
Qed.

(* ===================================================================== *)
(** ** Restore *)
(* ===================================================================== *)

(** C3. When [initializeAuth] is handed a session by the provider and the
    fetch of the profile fails, it completes without throwing and leaves
    [isAuthenticated = false], [loading = false] and [error] set to the
    description of the failure, hence not null.  Identity, profile and
    session are those of the state it found, so it ends half-authenticated
    only if it started so; from the initial state of the component the
    result is the signed-out state carrying the error. *)
Theorem restore_profile_fetch_failure :
  forall supabase s e m,
    auth_getSession supabase = Fulfilled (mkSessionResponse (Some s) None) ->
    profile_fetch_fails supabase (user_id (session_user s)) e ->
    let st' := auth (snd (initializeAuth supabase m)) in
    fst (initializeAuth supabase m) = Normal tt /\
    isAuthenticated st' = false /\
    loading st' = false /\
    error st' = Some (initMessage e) /\
    error st' <> None /\
    (~ half_authenticated (auth m) -> ~ half_authenticated st') /\
    (auth m = initialAuthState ->
     st' = {| user := None; profile := None; session := None;
              loading := false; error := Some (initMessage e);
              isAuthenticated := false |}).
Proof.
  intros supabase s e m Hs Hp st'.
  assert (E : initializeAuth supabase m
              = (Normal tt,
                 {| auth := {| user := user (auth m); profile := profile (auth m);
                               session := session (auth m); loading := false;
                               error := Some (initMessage e);
                               isAuthenticated := false |};
                    requests := (requests m ++ [ReqGetSession])
                                  ++ [ReqSelectProfile (user_id (session_user s))] |})).
  { unfold initializeAuth, try_catch, bind. unfold await at 1.
    rewrite Hs. simpl.
    rewrite (fetchProfile_fails _ _ _ _ Hp). reflexivity. }
  subst st'. rewrite E. simpl.
  repeat split; try discriminate.
  - intros Hn [Hu Hpr]. apply Hn. split; assumption.
  - intros ->. reflexivity.
Qed.

(** Witness for C3: the profile store is down while the provider still
    holds alice's session. *)
Lemma restore_profile_fetch_failure_witness :
  isAuthenticated
    (auth (snd (initializeAuth (Scenario.profiles_down Scenario.fresh_session)
                               (Scenario.start initialAuthState)))) = false.
Proof.
  refine (proj1 (proj2 (restore_profile_fetch_failure
            (Scenario.profiles_down Scenario.fresh_session)
            Scenario.fresh_session Scenario.network_down
            (Scenario.start initialAuthState) _ _))).
  - reflexivity.
  - right. reflexivity.
Defined.

(* ===================================================================== *)
(** ** Provider notifications *)
(* ===================================================================== *)

(** C6. A notification that delivers no session completes normally and
    writes the signed-out state (identity, profile and session null, no
    error, not loading, not authenticated) whatever the state was, and it
    sends no request.  In particular it undoes a sign-in that ran just
    before it, whether or not that sign-in succeeded. *)
Theorem notification_without_session_signs_out :
  forall supabase m,
    onAuthStateChange supabase None m = (Normal tt, with_auth signedOutState m) /\
    (forall st, after supabase (ProviderNotification None) st = signedOutState) /\
    (forall provider email password,
        auth (snd (onAuthStateChange supabase None
                     (snd (signIn provider email password m)))) = signedOutState).
Proof.
  intros supabase m. repeat split.
Qed.

(** C2. Alice is signed in; the provider announces her session again while
    the profile store is down.  The handler rejects with the store's error
    and leaves the state cell as it was: still authenticated, no error.
    [initializeAuth] against the same backend catches the same failure and
    writes [isAuthenticated = false] with the error text. *)
Theorem notification_fetch_failure_leaves_state :
  let prior := signedInState Scenario.alice (Some Scenario.alice_profile)
                             Scenario.fresh_session in
  let backend := Scenario.profiles_down Scenario.fresh_session in
  onAuthStateChange backend (Some Scenario.fresh_session) (Scenario.start prior)
  = (Throw Scenario.network_down,
     {| auth := prior; requests := [ReqSelectProfile "u1"] |})
  /\ isAuthenticated prior = true
  /\ error prior = None
  /\ initializeAuth backend (Scenario.start prior)
     = (Normal tt,
        {| auth := {| user := Some Scenario.alice;
                      profile := Some Scenario.alice_profile;
                      session := Some Scenario.fresh_session;
                      loading := false;
                      error := Some "Failed to fetch";
                      isAuthenticated := false |};
           requests := [ReqGetSession; ReqSelectProfile "u1"] |}).
Proof.
  repeat split.
Qed.

(* ===================================================================== *)
(** ** Sign-out *)
(* ===================================================================== *)

(** C8. If the provider accepts the sign-out, [signOut] completes normally
    and the state is the signed-out state: identity, profile, session and
    error are null, whatever they were.  If the provider answers with an
    error or the request is rejected, [signOut] throws that same value and
    the state is the previous one with only [error] replaced. *)
Theorem signOut_success_and_failure :
  forall supabase m,
    (auth_signOut supabase = Fulfilled None ->
     signOut supabase m
     = (Normal tt, with_auth signedOutState (logged ReqSignOut m))) /\
    (forall e,
        auth_signOut supabase = Fulfilled (Some e) \/
        auth_signOut supabase = Rejected e ->
        signOut supabase m
        = (Throw e,
           with_auth (with_error (Some (signOutMessage e)) (auth m))
                     (logged ReqSignOut m))).
Proof.
  intros supabase m. split.
  - intros H. async_unfold. rewrite H. reflexivity.
  - intros e [H | H]; async_unfold; rewrite H; reflexivity.
Qed.

(** Witness for C8: a provider that accepts the sign-out, from alice's
    signed-in state. *)
Lemma signOut_success_and_failure_witness :
  auth (snd (signOut (Scenario.serving Scenario.fresh_session)
               (Scenario.start
                  (signedInState Scenario.alice (Some Scenario.alice_profile)
                                 Scenario.fresh_session))))
  = signedOutState
  /\ fst (signOut Scenario.offline (Scenario.start initialAuthState))
     = Throw Scenario.network_down.
Proof.
  split.
  - rewrite (proj1 (signOut_success_and_failure
                      (Scenario.serving Scenario.fresh_session) _)).
    + reflexivity.
    + reflexivity.
  - rewrite (proj2 (signOut_success_and_failure Scenario.offline _)
               Scenario.network_down).
    + reflexivity.
    + right. reflexivity.
Defined.

(* ===================================================================== *)
(** ** Gallery service *)
(* ===================================================================== *)

(** C10. When the store answers the lookup with an error, the function
    returns null if the error's code is 'PGRST116' and throws the store's
    error for any other code, or for no code at all. *)
Theorem getGalleryByCategory_no_row :
  forall supabase category m d e,
    galleries_select supabase category = Fulfilled (mkSingle d (Some e)) ->
    (err_code e = Some "PGRST116" ->
     getGalleryByCategory supabase category m
     = (Normal None, logged (ReqSelectGallery category) m)) /\
    (err_code e <> Some "PGRST116" ->
     getGalleryByCategory supabase category m
     = (Throw e, logged (ReqSelectGallery category) m)).
Proof.
  intros supabase category m d e H. split; intros Hc.
  - async_unfold. rewrite H. simpl. rewrite Hc. reflexivity.
  - async_unfold. rewrite H. simpl.
    destruct (err_code e) as [code |]; [| reflexivity].
    destruct (String.eqb_spec code "PGRST116") as [-> | Hne];
      [congruence | reflexivity].
Qed.

(** Witness for C10: one backend answers 'PGRST116', another '42501'. *)
Lemma getGalleryByCategory_no_row_witness :
  fst (getGalleryByCategory (Scenario.serving Scenario.fresh_session) "cats"
         (Scenario.start initialAuthState)) = Normal None
  /\ fst (getGalleryByCategory Scenario.sessionless "cats"
            (Scenario.start initialAuthState)) = Throw Scenario.permission_denied.
Proof.
  split.
  - rewrite (proj1 (getGalleryByCategory_no_row
                      (Scenario.serving Scenario.fresh_session) "cats"
                      (Scenario.start initialAuthState) None Scenario.no_rows
                      eq_refl) eq_refl).
    reflexivity.
  - rewrite (proj2 (getGalleryByCategory_no_row
                      Scenario.sessionless "cats"
                      (Scenario.start initialAuthState) None
                      Scenario.permission_denied eq_refl)).
    + reflexivity.
    + discriminate.
Defined.

(** The language of the category pattern: the non-empty words over
    lowercase letters, digits and the hyphen. *)
Lemma category_pattern_language w :
  Regex.Matches category_pattern w <->
  w <> [] /\ Forall (fun c => Regex.in_class category_class c = true) w.
Proof. apply RegexFacts.Plus_Class. Qed.

Lemma category_test_closed_form s :
  Regex.test_anchored category_pattern s =
  truthy_string s && forallb (Regex.in_class category_class) (list_ascii_of_string s).
Proof. apply RegexFacts.test_anchored_Plus_Class. Qed.

(** One character outside the class is enough to fall out of the language,
    and so is having no character at all. *)
Lemma category_with_foreign_character s c :
  In c (list_ascii_of_string s) ->
  Regex.in_class category_class c = false ->
  ~ Regex.Matches category_pattern (list_ascii_of_string s).
Proof.
  intros Hin Hc Hm. apply category_pattern_language in Hm.
  destruct Hm as [_ Hall].
  rewrite Forall_forall in Hall. specialize (Hall c Hin). congruence.
Qed.

Lemma empty_category_not_matched :
  ~ Regex.Matches category_pattern (list_ascii_of_string "").
Proof.
  intros Hm. apply category_pattern_language in Hm.
  destruct Hm as [Hne _]. apply Hne. reflexivity.
Qed.

Example category_class_examples :
  Regex.in_class category_class "I" = false /\
  Regex.in_class category_class " " = false /\
  Regex.in_class category_class "!" = false /\
  Regex.in_class category_class "_" = false /\
  Regex.in_class category_class "q" = true /\
  Regex.in_class category_class "7" = true /\
  Regex.in_class category_class "-" = true.
Proof. repeat split. Qed.

Example category_test_examples :
  Regex.test_anchored category_pattern "cat-videos-2024" = true /\
  Regex.test_anchored category_pattern "Invalid Category!" = false /\
  Regex.test_anchored category_pattern "" = false.
Proof. repeat split. Qed.

(** C9. A category outside the language of [[a-z0-9-]+] makes
    [createGallery] throw the format error with the machine untouched: the
    request log is the one it was given, so nothing was sent to the store
    or to the provider. *)
Theorem createGallery_rejects_malformed_category :
  forall supabase name description category isPublic m,
    ~ Regex.Matches category_pattern (list_ascii_of_string category) ->
    createGallery supabase name description category isPublic m
    = (Throw (new_Error category_format_message), m)
    /\ requests (snd (createGallery supabase name description category isPublic m))
       = requests m.
Proof.
  intros supabase name description category isPublic m H.
  assert (E : Regex.test_anchored category_pattern category = false).
  { apply not_true_is_false. intros Ht. apply H.
    apply RegexFacts.accepts_Matches. exact Ht. }
  unfold createGallery. rewrite E. simpl. unfold throw. split; reflexivity.
Qed.

(** Witness for C9: the category "Invalid Category!". *)
Lemma createGallery_rejects_malformed_category_witness :
  createGallery Scenario.offline "Holiday" "Photos" "Invalid Category!" true
    (Scenario.start initialAuthState)
  = (Throw (new_Error category_format_message), Scenario.start initialAuthState).
Proof.
  refine (proj1 (createGallery_rejects_malformed_category
            Scenario.offline "Holiday" "Photos" "Invalid Category!" true
            (Scenario.start initialAuthState) _)).
  intros H. apply RegexFacts.accepts_Matches in H. vm_compute in H. discriminate.
Defined.

(* ===================================================================== *)
(** ** Profile update *)
(* ===================================================================== *)




(* ===================================================================== *)
(** ** Session expiry *)
(* ===================================================================== *)

(** Seconds against milliseconds, without fractions. *)
Lemma Qle_seconds_millis (e now_ms : Z) :
  (inject_Z e <= now_ms # 1000)%Q <-> e * 1000 <= now_ms.
Proof.
  unfold Qle, inject_Z. simpl. rewrite Z.mul_1_r. reflexivity.
Qed.

Lemma Qlt_seconds_millis (e now_ms : Z) :
  (inject_Z e < now_ms # 1000)%Q <-> e * 1000 < now_ms.
Proof.
  unfold Qlt, inject_Z. simpl. rewrite Z.mul_1_r. reflexivity.
Qed.

Lemma Qlt_millis_seconds (e now_ms : Z) :
  (now_ms # 1000 < inject_Z e)%Q <-> now_ms < e * 1000.
Proof.
  unfold Qlt, inject_Z. simpl. rewrite Z.mul_1_r. reflexivity.
Qed.

Lemma Qeq_seconds_millis (e now_ms : Z) :
  (inject_Z e == now_ms # 1000)%Q <-> e * 1000 = now_ms.
Proof.
  unfold Qeq, inject_Z. simpl. rewrite Z.mul_1_r. reflexivity.
Qed.

Lemma spec_expired_true (now_ms e : Z) :
  spec_expired now_ms e = true <-> (inject_Z e <= now_ms # 1000)%Q.
Proof. unfold spec_expired. apply Qle_bool_iff. Qed.

(** The check on a session whose expiry is a number other than zero. *)
Lemma sessionExpired_nonzero now_ms s e :
  expires_at s = Some e -> e <> 0 ->
  sessionExpired now_ms s = spec_expired now_ms e.
Proof.
  intros He Hz. unfold sessionExpired, spec_expired. rewrite He.
  destruct (Z.eqb_spec e 0); [contradiction | reflexivity].
Qed.

(** Where the route consults the check: past the loading, error and
    sign-in gates. *)
Lemma ProtectedRoute_consults_expiry now_ms st s :
  loading st = false -> error st = None ->
  isAuthenticated st = true -> session st = Some s ->
  ProtectedRoute now_ms st
  = if sessionExpired now_ms s
    then NavigateToLogin "Your session has expired. Please sign in again."
    else Children.
Proof.
  intros Hl He Ha Hs. unfold ProtectedRoute, error_shown.
  rewrite Hl, He, Ha, Hs. reflexivity.
Qed.

(** C5 as the specification words it does not hold: an expiry of zero is
    in the past of every later instant, but the check takes the number
    zero for an absent expiry and reports the session as not expired. *)
Lemma sessionExpired_zero_expiry_not_reported :
  ~ (forall now_ms s e,
        expires_at s = Some e ->
        sessionExpired now_ms s = spec_expired now_ms e).
Proof.
  intros H.
  specialize (H Scenario.now_ms Scenario.epoch_session 0 eq_refl).
  vm_compute in H. discriminate.
Qed.

(** C5, amended.  For a session whose [expires_at] is present and not
    zero, the check reports expired exactly when the current time
    [Date.now() / 1000] is at or after [expires_at]: expired when the
    expiry is strictly in the past, not expired when it is in the future,
    expired at the boundary.  A session whose [expires_at] is absent or
    zero is never reported expired. *)
Theorem sessionExpired_correct :
  forall now_ms s,
    (forall e,
        expires_at s = Some e -> e <> 0 ->
        (sessionExpired now_ms s = true <-> (inject_Z e <= now_ms # 1000)%Q) /\
        ((inject_Z e < now_ms # 1000)%Q -> sessionExpired now_ms s = true) /\
        ((now_ms # 1000 < inject_Z e)%Q -> sessionExpired now_ms s = false) /\
        ((inject_Z e == now_ms # 1000)%Q -> sessionExpired now_ms s = true)) /\
    (expires_at s = None \/ expires_at s = Some 0 ->
     sessionExpired now_ms s = false).
Proof.
  intros now_ms s. split.
  - intros e He Hz. rewrite (sessionExpired_nonzero now_ms s e He Hz).
    repeat split.
    + apply spec_expired_true.
    + apply spec_expired_true.
    + intros H. apply spec_expired_true. apply Qlt_le_weak. exact H.
    + intros H. apply not_true_is_false. intros Ht.
      pose proof (proj1 (spec_expired_true now_ms e) Ht) as Hle.
      pose proof (proj1 (Qlt_millis_seconds e now_ms) H) as Hlt.
      pose proof (proj1 (Qle_seconds_millis e now_ms) Hle) as Hle'.
      lia.
    + intros H. apply spec_expired_true.
      pose proof (proj1 (Qeq_seconds_millis e now_ms) H) as Heq.
      apply Qle_seconds_millis. lia.
  - intros [H | H]; unfold sessionExpired; rewrite H; reflexivity.
Qed.

(** Witness for C5: a session that expired an hour ago. *)
Lemma sessionExpired_correct_witness :
  sessionExpired Scenario.now_ms Scenario.stale_session = true
  /\ sessionExpired Scenario.now_ms Scenario.fresh_session = false
  /\ sessionExpired Scenario.now_ms Scenario.epoch_session = false.
Proof.
  split; [| split].
  - refine (proj1 (proj2 (proj1 (sessionExpired_correct Scenario.now_ms
              Scenario.stale_session) 1767222000 _ _)) _).
    + reflexivity.
    + lia.
    + apply Qlt_seconds_millis. vm_compute. reflexivity.
  - refine (proj1 (proj2 (proj2 (proj1 (sessionExpired_correct Scenario.now_ms
              Scenario.fresh_session) 1767229200 _ _))) _).
    + reflexivity.
    + lia.
    + apply Qlt_millis_seconds. vm_compute. reflexivity.
  - refine (proj2 (sessionExpired_correct Scenario.now_ms Scenario.epoch_session) _).
    right. reflexivity.
Defined.

(* ===================================================================== *)
(** ** Sign-in *)
(* ===================================================================== *)

(** Whatever [signIn] throws, its catch block has written the message of
    that value and cleared the flag, and nothing else. *)
Lemma signIn_throw_state supabase email password m e :
  fst (signIn supabase email password m) = Throw e ->
  auth (snd (signIn supabase email password m))
  = {| user := user (auth m); profile := profile (auth m);
       session := session (auth m); loading := loading (auth m);
       error := Some (signInMessage e); isAuthenticated := false |}.
Proof.
  unfold signIn, try_catch, bind. unfold await at 1 2.
  destruct (auth_signInWithPassword supabase email password) as [r | e0]; simpl.
  - destruct (auth_error r) as [e1 |]; simpl.
    + intros [= ->]. reflexivity.
    + destruct (auth_session r) as [s |]; simpl.
      * rewrite fetchProfile_run.
        destruct (profiles_select supabase _) as [q | e2]; simpl.
        -- destruct (query_error q); simpl.
           ++ intros [= ->]. reflexivity.
           ++ discriminate.
        -- intros [= ->]. reflexivity.
      * intros [= <-]. reflexivity.
  - intros [= ->]. reflexivity.
Qed.

Lemma signInMessage_nonempty e :
  instanceof_AuthError e = false \/ err_message e <> "" ->
  signInMessage e <> "".
Proof.
  unfold signInMessage. destruct (instanceof_AuthError e).
  - intros [H | H]; [discriminate | exact H].
  - intros _. discriminate.
Qed.

(** C7 as the specification words it does not hold: the message of an
    [AuthError] is copied as it is, so a provider error without text
    leaves [error] set to the empty string. *)
Lemma signIn_failure_empty_provider_message :
  ~ (forall supabase email password m e,
        fst (signIn supabase email password m) = Throw e ->
        exists msg,
          error (auth (snd (signIn supabase email password m))) = Some msg /\
          msg <> "" /\
          isAuthenticated (auth (snd (signIn supabase email password m))) = false).
Proof.
  intros H.
  destruct (H Scenario.refusing_silently "a@b.com" "wrongpass"
              (Scenario.start initialAuthState) Scenario.silent_auth_error
              eq_refl)
    as (msg & Herr & Hne & _).
  vm_compute in Herr. injection Herr as <-. apply Hne. reflexivity.
Qed.

(** Each cause of failure makes [signIn] throw the value of that cause,
    after the catch block has written its message and cleared the flag. *)
Lemma signIn_fails_run supabase email password m e :
  signIn_fails_with supabase email password e ->
  fst (signIn supabase email password m) = Throw e /\
  auth (snd (signIn supabase email password m))
  = with_error_lowered (signInMessage e) (auth m).
Proof.
  unfold signIn, try_catch, bind. unfold await.
  intros [H | [(r & H & He) | [(r & H & He & Hs & ->) | (r & s & H & He & Hs & Hp)]]];
    rewrite H; simpl.
  - split; reflexivity.
  - rewrite He. split; reflexivity.
  - rewrite He, Hs. split; reflexivity.
  - rewrite He, Hs. simpl. rewrite (fetchProfile_fails _ _ _ _ Hp).
    split; reflexivity.
Qed.

(** Nothing else makes it throw. *)
Lemma signIn_throw_cause supabase email password m e :
  fst (signIn supabase email password m) = Throw e ->
  signIn_fails_with supabase email password e.
Proof.
  unfold signIn, try_catch, bind, signIn_fails_with. unfold await.
  destruct (auth_signInWithPassword supabase email password) as [r | e0] eqn:Er;
    simpl.
  - destruct (auth_error r) as [e1 |] eqn:Ee; simpl.
    + intros [= ->]. right. left. exists r. auto.
    + destruct (auth_session r) as [s |] eqn:Es; simpl.
      * rewrite fetchProfile_run.
        destruct (profiles_select supabase _) as [q | e2] eqn:Ep; simpl.
        -- destruct (query_error q) as [e3 |] eqn:Eq; simpl; [| discriminate].
           intros [= ->]. right. right. right. exists r, s.
           repeat split; try assumption.
           left. exists (data q). rewrite Ep. destruct q; simpl in *.
           subst. reflexivity.
        -- intros [= ->]. right. right. right. exists r, s.
           repeat split; try assumption. right. exact Ep.
      * intros [= <-]. right. right. left. exists r. auto.
  - intros [= ->]. left. reflexivity.
Qed.

(** C7, amended.  [signIn] fails in four ways: the sign-in request is
    rejected, the provider answers with an error, the provider answers
    with neither error nor session (the failure is then
    [Error('No session created after sign in')]), or the fetch of the
    profile fails.  In each of them [signIn] throws the value [e] of that
    failure to its caller, [isAuthenticated] is false, the other fields
    are those of the previous state, and [error] is the message of [e]
    copied as it is if [e] is an [AuthError], the generic credential
    message otherwise.  It throws in no other case.  The generic message
    is not empty; the copied one is not empty if the provider's message is
    not. *)
Theorem signIn_failure :
  forall supabase email password m,
    (forall e,
        signIn_fails_with supabase email password e ->
        fst (signIn supabase email password m) = Throw e /\
        auth (snd (signIn supabase email password m))
        = with_error_lowered (signInMessage e) (auth m)) /\
    (forall e,
        fst (signIn supabase email password m) = Throw e ->
        signIn_fails_with supabase email password e) /\
    (forall r,
        auth_signInWithPassword supabase email password = Fulfilled r ->
        auth_error r = None -> auth_session r = None ->
        fst (signIn supabase email password m)
        = Throw (new_Error "No session created after sign in")) /\
    (forall e,
        fst (signIn supabase email password m) = Throw e ->
        let st' := auth (snd (signIn supabase email password m)) in
        error st' = Some (signInMessage e) /\
        isAuthenticated st' = false /\
        user st' = user (auth m) /\
        profile st' = profile (auth m) /\
        session st' = session (auth m) /\
        loading st' = loading (auth m) /\
        (instanceof_AuthError e = true -> signInMessage e = err_message e) /\
        (instanceof_AuthError e = false -> signInMessage e = signIn_generic_message) /\
        (instanceof_AuthError e = false \/ err_message e <> "" ->
         signInMessage e <> "")).
Proof.
  intros supabase email password m. split; [| split; [| split]].
  - intros e. apply signIn_fails_run.
  - intros e. apply signIn_throw_cause.
  - intros r Hr He Hs.
    apply (signIn_fails_run supabase email password m).
    right. right. left. exists r. auto.
  - intros e He st'. subst st'. rewrite (signIn_throw_state _ _ _ _ _ He). simpl.
    repeat split.
    + unfold signInMessage. intros ->. reflexivity.
    + unfold signInMessage. intros ->. reflexivity.
    + apply signInMessage_nonempty.
Qed.

(** Witness for C7: a wrong password, a provider that answers without a
    session, and a profile store that is down. *)
Lemma signIn_failure_witness :
  (fst (signIn (Scenario.serving Scenario.fresh_session)
          "a@b.com" "wrongpass" (Scenario.start initialAuthState))
   = Throw Scenario.invalid_credentials
   /\ auth (snd (signIn (Scenario.serving Scenario.fresh_session)
                   "a@b.com" "wrongpass" (Scenario.start initialAuthState)))
      = with_error_lowered "Invalid login credentials" initialAuthState)
  /\ fst (signIn Scenario.sessionless "a@b.com" "validpass"
            (Scenario.start initialAuthState))
     = Throw (new_Error "No session created after sign in")
  /\ fst (signIn (Scenario.profiles_down Scenario.fresh_session)
            "a@b.com" "validpass" (Scenario.start initialAuthState))
     = Throw Scenario.network_down.
Proof.
  split; [| split].
  - refine (proj1 (signIn_failure (Scenario.serving Scenario.fresh_session)
              "a@b.com" "wrongpass" (Scenario.start initialAuthState))
              Scenario.invalid_credentials _).
    right. left.
    exists (mkAuthResponse None None (Some Scenario.invalid_credentials)).
    split; reflexivity.
  - refine (proj1 (proj2 (proj2 (signIn_failure Scenario.sessionless
              "a@b.com" "validpass" (Scenario.start initialAuthState))))
              (mkAuthResponse (Some Scenario.alice) None None) _ _ _);
      reflexivity.
  - refine (proj1 (proj1 (signIn_failure
              (Scenario.profiles_down Scenario.fresh_session)
              "a@b.com" "validpass" (Scenario.start initialAuthState))
              Scenario.network_down _)).
    right. right. right.
    exists (mkAuthResponse (Some Scenario.alice) (Some Scenario.fresh_session) None),
           Scenario.fresh_session.
    repeat split. right. reflexivity.
Defined.

(* ===================================================================== *)
(** ** The flag [isAuthenticated] over all reachable states *)
(* ===================================================================== *)

Lemma flag_backed_signedIn u p s : flag_backed (signedInState u p s).
Proof. intros _. split; discriminate. Qed.

Lemma flag_backed_lowered st : isAuthenticated st = false -> flag_backed st.
Proof. intros H Ht. congruence. Qed.

Lemma perform_keeps_flag_backed supabase op m :
  flag_backed (auth m) -> flag_backed (auth (snd (perform supabase op m))).
Proof.
  intros Hinv. destruct op; simpl.
  - (* Restore *)
    unfold initializeAuth, try_catch, bind. unfold await at 1.
    destruct (auth_getSession supabase) as [r | e]; simpl;
      [| apply flag_backed_lowered; reflexivity].
    destruct (gs_error r); simpl; [apply flag_backed_lowered; reflexivity |].
    destruct (gs_session r) as [s |]; simpl;
      [| apply flag_backed_lowered; reflexivity].
    rewrite fetchProfile_run.
    destruct (profiles_select supabase _) as [q | e]; simpl;
      [| apply flag_backed_lowered; reflexivity].
    destruct (query_error q); simpl;
      [apply flag_backed_lowered; reflexivity | apply flag_backed_signedIn].
  - (* ProviderNotification *)
    destruct s as [s |]; simpl; [| apply flag_backed_lowered; reflexivity].
    unfold bind. rewrite fetchProfile_run.
    destruct (profiles_select supabase _) as [q | e]; simpl; [| exact Hinv].
    destruct (query_error q); simpl; [exact Hinv | apply flag_backed_signedIn].
  - (* SignIn *)
    destruct (fst (signIn supabase email password m)) eqn:E.
    + revert E. unfold signIn, try_catch, bind. unfold await at 1 2.
      destruct (auth_signInWithPassword supabase email password) as [r | e];
        simpl; [| discriminate].
      destruct (auth_error r); simpl; [discriminate |].
      destruct (auth_session r) as [s |]; simpl; [| discriminate].
      rewrite fetchProfile_run.
      destruct (profiles_select supabase _) as [q | e]; simpl; [| discriminate].
      destruct (query_error q); simpl; [discriminate |].
      intros _. apply flag_backed_signedIn.
    + rewrite (signIn_throw_state _ _ _ _ _ E).
      apply flag_backed_lowered. reflexivity.
  - (* SignUp *)
    unfold signUp, try_catch, bind. unfold await at 1.
    destruct (auth_signUp supabase email password uname) as [r | e]; simpl;
      [| apply flag_backed_lowered; reflexivity].
    destruct (auth_error r); simpl; [apply flag_backed_lowered; reflexivity |].
    destruct (auth_session r) as [s |]; simpl;
      [| apply flag_backed_lowered; reflexivity].
    destruct (auth_user r) as [u |]; simpl;
      [| apply flag_backed_lowered; reflexivity].
    rewrite fetchProfile_run.
    destruct (profiles_select supabase _) as [q | e]; simpl;
      [| apply flag_backed_lowered; reflexivity].
    destruct (query_error q); simpl;
      [apply flag_backed_lowered; reflexivity | apply flag_backed_signedIn].
  - (* SignOut *)
    unfold signOut, try_catch, bind, await.
    destruct (auth_signOut supabase) as [[e |] | e]; simpl;
      solve [exact Hinv | apply flag_backed_lowered; reflexivity].
  - (* UpdateProfile *)
    unfold updateProfile, bind, readAuthState.
    destruct (user (auth m)) as [u |] eqn:Eu; simpl; [| exact Hinv].
    unfold try_catch, bind, await.
    destruct (profiles_update supabase updates (user_id u)) as [q | e]; simpl;
      [| exact Hinv].
    destruct (query_error q); simpl; exact Hinv.
  - (* ClearError *)
    exact Hinv.
Qed.

(** C1 as the specification words it does not hold: alice is restored
    with a session good for another hour, then a sign-in with a wrong
    password fails.  The state still holds her identity and the unexpired
    session, with [isAuthenticated = false]. *)
Lemma isAuthenticated_not_spec_invariant :
  ~ (forall st now_ms,
        reachable st ->
        (isAuthenticated st = true <-> spec_isAuthenticated now_ms st = true)).
Proof.
  intros H.
  pose (backend := Scenario.serving Scenario.fresh_session).
  pose (st := after backend (SignIn "a@b.com" "wrongpass")
                (after backend RestoreAtStart initialAuthState)).
  assert (Hr : reachable st).
  { apply reachable_step, reachable_step, reachable_initial. }
  destruct (H st Scenario.now_ms Hr) as [_ Hback].
  assert (Hs : spec_isAuthenticated Scenario.now_ms st = true) by (vm_compute; reflexivity).
  specialize (Hback Hs). vm_compute in Hback. discriminate.
Qed.

(** The other direction fails as well: a restored session that expired an
    hour ago is stored with [isAuthenticated = true]. *)
Lemma isAuthenticated_with_expired_session :
  let st := after (Scenario.serving Scenario.stale_session) RestoreAtStart initialAuthState in
  reachable st /\
  isAuthenticated st = true /\
  session st = Some Scenario.stale_session /\
  sessionExpired Scenario.now_ms Scenario.stale_session = true /\
  spec_isAuthenticated Scenario.now_ms st = false.
Proof.
  split; [apply reachable_step, reachable_initial |].
  repeat split.
Qed.

(** C1, amended.  In every reachable state, [isAuthenticated = true]
    implies that an identity and a session are present. *)
Theorem isAuthenticated_implies_identity_and_session :
  forall st,
    reachable st ->
    isAuthenticated st = true ->
    (exists u, user st = Some u) /\ (exists s, session st = Some s).
Proof.
  intros st Hr. 
  assert (Hinv : flag_backed st).
  { induction Hr as [| st supabase op Hr IH].
    - apply flag_backed_lowered. reflexivity.
    - unfold after.
      apply (perform_keeps_flag_backed supabase op {| auth := st; requests := [] |}).
      exact IH. }
  intros Ht. destruct (Hinv Ht) as [Hu Hs].
  destruct (user st) as [u |]; [| congruence].
  destruct (session st) as [s |]; [| congruence].
  split; eexists; reflexivity.
Qed.

(** Witness for C1: the state after alice's session has been restored. *)
Lemma isAuthenticated_implies_identity_and_session_witness :
  (exists u, user (after (Scenario.serving Scenario.fresh_session) RestoreAtStart
                     initialAuthState) = Some u)
  /\ (exists s, session (after (Scenario.serving Scenario.fresh_session) RestoreAtStart
                           initialAuthState) = Some s).
Proof.
  apply (isAuthenticated_implies_identity_and_session
           (after (Scenario.serving Scenario.fresh_session) RestoreAtStart initialAuthState)).
  - apply reachable_step, reachable_initial.
  - reflexivity.
Defined.


(* ===================================================================== *)
(** * Further properties of the session manager *)
(* ===================================================================== *)

(** Every run of every operation has one of the shapes of [Effect]. *)
Lemma perform_effect supabase op m :
  Effect (auth m) (fst (perform supabase op m)) (auth (snd (perform supabase op m))).
Proof.
  destruct op; simpl.
  - unfold initializeAuth, try_catch, bind. unfold await at 1.
    destruct (auth_getSession supabase) as [r | e]; simpl;
      [| apply (EffSettled _ (initMessage e))].
    destruct (gs_error r) as [e |]; simpl; [apply (EffSettled _ (initMessage e)) |].
    destruct (gs_session r) as [s |]; simpl; [| apply EffSignedOut].
    rewrite fetchProfile_run.
    destruct (profiles_select supabase _) as [q | e]; simpl;
      [| apply (EffSettled _ (initMessage e))].
    destruct (query_error q) as [e |]; simpl;
      [apply (EffSettled _ (initMessage e)) | apply EffSignedIn].
  - destruct s as [s |]; simpl; [| apply EffSignedOut].
    unfold bind. rewrite fetchProfile_run.
    destruct (profiles_select supabase _) as [q | e]; simpl; [| apply EffUntouched].
    destruct (query_error q); simpl; [apply EffUntouched | apply EffSignedIn].
  - unfold signIn, try_catch, bind. unfold await at 1.
    destruct (auth_signInWithPassword supabase email password) as [r | e]; simpl;
      [| apply (EffLowered _ e (signInMessage e))].
    destruct (auth_error r) as [e |]; simpl;
      [apply (EffLowered _ e (signInMessage e)) |].
    destruct (auth_session r) as [s |]; simpl;
      [| apply (EffLowered _ _ (signInMessage _))].
    rewrite fetchProfile_run.
    destruct (profiles_select supabase _) as [q | e]; simpl;
      [| apply (EffLowered _ e (signInMessage e))].
    destruct (query_error q) as [e |]; simpl;
      [apply (EffLowered _ e (signInMessage e)) | apply EffSignedIn].
  - unfold signUp, try_catch, bind. unfold await at 1.
    destruct (auth_signUp supabase email password uname) as [r | e]; simpl;
      [| apply (EffLowered _ e (signUpMessage e))].
    destruct (auth_error r) as [e |]; simpl;
      [apply (EffLowered _ e (signUpMessage e)) |].
    destruct (auth_session r) as [s |]; simpl;
      [| apply (EffLowered _ _ (signUpMessage _))].
    destruct (auth_user r) as [u |]; simpl;
      [| apply (EffLowered _ _ (signUpMessage _))].
    rewrite fetchProfile_run.
    destruct (profiles_select supabase _) as [q | e]; simpl;
      [| apply (EffLowered _ e (signUpMessage e))].
    destruct (query_error q) as [e |]; simpl;
      [apply (EffLowered _ e (signUpMessage e)) | apply EffSignedIn].
  - unfold signOut, try_catch, bind, await.
    destruct (auth_signOut supabase) as [[e |] | e]; simpl.
    + apply (EffError _ e (signOutMessage e)).
    + apply EffSignedOut.
    + apply (EffError _ e (signOutMessage e)).
  - unfold updateProfile, bind, readAuthState.
    destruct (user (auth m)) as [u |] eqn:Eu; simpl; [| apply EffUntouched].
    unfold try_catch, bind, await.
    destruct (profiles_update supabase updates (user_id u)) as [q | e]; simpl;
      [| apply (EffError _ e (updateProfileMessage e))].
    destruct (query_error q) as [e |]; simpl.
    + apply (EffError _ e (updateProfileMessage e)).
    + apply (EffProfile _ u (data q)). exact Eu.
  - apply EffCleared.
Qed.

(** Whatever an operation does to the state cell when it runs alone is
    nothing, or one write. *)
Lemma Effect_is_write prev c st : Effect prev c st -> st = prev \/ Write prev st.
Proof.
  intros H. destruct H.
  - right. apply WriteSignedIn.
  - right. apply WriteSignedOut.
  - right. apply WriteSettled.
  - right. apply WriteProfile.
  - right. apply (WriteError prev None).
  - left. reflexivity.
  - right. apply WriteLowered.
  - right. apply (WriteError prev (Some msg)).
Qed.

Lemma Write_keeps_coherent prev st : Write prev st -> coherent prev -> coherent st.
Proof.
  intros H (Hus & Hf & Hl). destruct H; unfold coherent; simpl.
  - repeat split; intros; try discriminate; congruence.
  - repeat split; intros; try discriminate; congruence.
  - split; [exact Hus |]. split; intros; discriminate.
  - split; [exact Hus |]. split; intros; discriminate.
  - split; [exact Hus |]. split; assumption.
  - split; [exact Hus |]. split; assumption.
Qed.

(** X1. Take the state cell to change by one [setAuthState] call at a
    time, each applied to the state current at that moment, the calls of
    different operations coming in any order.  Then in every state the
    cell can hold an identity is present exactly when a session is, and
    [isAuthenticated] is true only with an identity and a session present
    and [loading] false.  Every operation run alone changes the cell by
    nothing or by one such call, so the states reached by whole
    operations are among these. *)
Theorem written_states_coherent :
  (forall st, written st -> coherent st) /\
  (forall supabase op m,
      auth (snd (perform supabase op m)) = auth m \/
      Write (auth m) (auth (snd (perform supabase op m)))) /\
  (forall st, reachable st -> written st).
Proof.
  assert (Hop : forall supabase op m,
             auth (snd (perform supabase op m)) = auth m \/
             Write (auth m) (auth (snd (perform supabase op m)))).
  { intros supabase op m. eapply Effect_is_write. apply perform_effect. }
  split; [| split].
  - induction 1 as [| prev st Hw IH Hstep].
    + unfold coherent. simpl. repeat split; intros; try discriminate; congruence.
    + eapply Write_keeps_coherent; eassumption.
  - exact Hop.
  - induction 1 as [| st supabase op Hr IH].
    + apply written_initial.
    + unfold after.
      destruct (Hop supabase op {| auth := st; requests := [] |}) as [E | W];
        simpl in *.
      * rewrite E. exact IH.
      * eapply written_step; eassumption.
Qed.

(** Witness for X1: a profile update whose write lands after a
    notification has signed alice out. *)
Lemma written_states_coherent_witness :
  coherent (with_profile (Some Scenario.alice_profile) signedOutState).
Proof.
  apply (proj1 written_states_coherent).
  eapply written_step; [| apply WriteProfile].
  eapply written_step; [| apply WriteSignedOut].
  eapply written_step; [apply written_initial |].
  apply (WriteSignedIn initialAuthState Scenario.alice (Some Scenario.alice_profile)
           Scenario.fresh_session).
Defined.

(** X2. No operation turns [loading] back on: once it is false it is false
    after every operation, whatever the backend answers. *)
Theorem loading_stays_off :
  forall supabase op m,
    loading (auth m) = false ->
    loading (auth (snd (perform supabase op m))) = false.
Proof.
  intros supabase op m H.
  destruct (perform_effect supabase op m); simpl; auto.
Qed.

(** Witness for X2: a sign-out that fails after the restore has settled. *)
Lemma loading_stays_off_witness :
  loading (auth (snd (perform Scenario.offline SignOut
                        (Scenario.start signedOutState)))) = false.
Proof.
  apply loading_stays_off. reflexivity.
Defined.

(** X3. An operation that throws has changed neither identity, profile,
    session nor [loading], and has not raised [isAuthenticated]: a failure
    touches [error] and can only lower the flag. *)
Theorem failure_keeps_identity :
  forall supabase op m e,
    fst (perform supabase op m) = Throw e ->
    let st' := auth (snd (perform supabase op m)) in
    user st' = user (auth m) /\
    profile st' = profile (auth m) /\
    session st' = session (auth m) /\
    loading st' = loading (auth m) /\
    (isAuthenticated st' = true -> isAuthenticated (auth m) = true).
Proof.
  intros supabase op m e H. simpl.
  destruct (perform_effect supabase op m); try discriminate; simpl;
    repeat split; auto; discriminate.
Qed.

(** Witness for X3: a sign-up refused while alice is signed in. *)
Lemma failure_keeps_identity_witness :
  user (auth (snd (perform Scenario.refusing_silently (SignUp "b@b.com" "pw" "bob")
                     (Scenario.start
                        (signedInState Scenario.alice (Some Scenario.alice_profile)
                                       Scenario.fresh_session)))))
  = Some Scenario.alice.
Proof.
  refine (proj1 (failure_keeps_identity Scenario.refusing_silently
                   (SignUp "b@b.com" "pw" "bob")
                   (Scenario.start
                      (signedInState Scenario.alice (Some Scenario.alice_profile)
                                     Scenario.fresh_session))
                   Scenario.silent_auth_error _)).
  reflexivity.
Defined.

(** X4. [isAuthenticated] goes from false to true only when an operation
    completes normally and writes a whole signed-in state: identity and
    session set, [error] null, [loading] false. *)
Theorem flag_raised_by_success_only :
  forall supabase op m,
    isAuthenticated (auth m) = false ->
    isAuthenticated (auth (snd (perform supabase op m))) = true ->
    fst (perform supabase op m) = Normal tt /\
    exists u p s,
      auth (snd (perform supabase op m)) = signedInState u p s.
Proof.
  intros supabase op m Hb Ha.
  destruct (perform_effect supabase op m); simpl in Ha; try congruence.
  split; [reflexivity | eauto].
Qed.

(** Witness for X4: the restore of alice's session. *)
Lemma flag_raised_by_success_only_witness :
  exists u p s,
    auth (snd (perform (Scenario.serving Scenario.fresh_session) RestoreAtStart
                 (Scenario.start initialAuthState)))
    = signedInState u p s.
Proof.
  refine (proj2 (flag_raised_by_success_only
                   (Scenario.serving Scenario.fresh_session) RestoreAtStart
                   (Scenario.start initialAuthState) _ _));
    reflexivity.
Defined.

(* ===================================================================== *)
(** ** What each operation ends in *)
(* ===================================================================== *)

(** X5. The restore never throws and always ends with [loading] false.
    Its final state is the signed-in state when the provider holds a
    session and the profile fetch succeeds, the signed-out state when the
    provider holds none, and otherwise the state it found with [error]
    set to the failure's text and [isAuthenticated] false. *)
Theorem restore_outcome :
  forall supabase m,
    let st' := auth (snd (initializeAuth supabase m)) in
    fst (initializeAuth supabase m) = Normal tt /\
    loading st' = false /\
    ((exists r s q,
         auth_getSession supabase = Fulfilled r /\ gs_error r = None /\
         gs_session r = Some s /\
         profiles_select supabase (user_id (session_user s)) = Fulfilled q /\
         query_error q = None /\
         st' = signedInState (session_user s) (data q) s)
     \/ (exists r,
            auth_getSession supabase = Fulfilled r /\ gs_error r = None /\
            gs_session r = None /\ st' = signedOutState)
     \/ (exists e,
            (request_failed (auth_getSession supabase) gs_error e \/
             exists r s,
               auth_getSession supabase = Fulfilled r /\ gs_error r = None /\
               gs_session r = Some s /\
               profile_fetch_fails supabase (user_id (session_user s)) e) /\
            st' = with_error_settled (initMessage e) (auth m))).
Proof.
  intros supabase m st'. split; [apply initializeAuth_completes |].
  subst st'. unfold initializeAuth, try_catch, bind. unfold await.
  destruct (auth_getSession supabase) as [r | e] eqn:Eg; simpl.
  - destruct (gs_error r) as [e |] eqn:Ee; simpl.
    + split; [reflexivity |]. right. right. exists e. split; [| reflexivity].
      left. right. exists r. auto.
    + destruct (gs_session r) as [s |] eqn:Es; simpl.
      * rewrite fetchProfile_run.
        destruct (profiles_select supabase _) as [q | e] eqn:Ep; simpl.
        -- destruct (query_error q) as [e |] eqn:Eq; simpl.
           ++ split; [reflexivity |]. right. right. exists e.
              split; [| reflexivity]. right. exists r, s. repeat split; auto.
              left. exists (data q). rewrite Ep. destruct q; simpl in *.
              subst. reflexivity.
           ++ split; [reflexivity |]. left. exists r, s, q. repeat split; auto.
        -- split; [reflexivity |]. right. right. exists e.
           split; [| reflexivity]. right. exists r, s. repeat split; auto.
           right. exact Ep.
      * split; [reflexivity |]. right. left. exists r. auto.
  - split; [reflexivity |]. right. right. exists e. split; [| reflexivity].
    left. left. reflexivity.
Qed.

(** X6. A notification that completes normally writes a state that does
    not depend on the state it found: the provider's word replaces
    whatever was there, with [error] null and [loading] false. *)
Theorem notification_overwrites :
  forall supabase s m1 m2,
    fst (onAuthStateChange supabase s m1) = Normal tt ->
    auth (snd (onAuthStateChange supabase s m1))
    = auth (snd (onAuthStateChange supabase s m2)) /\
    error (auth (snd (onAuthStateChange supabase s m1))) = None /\
    loading (auth (snd (onAuthStateChange supabase s m1))) = false /\
    (isAuthenticated (auth (snd (onAuthStateChange supabase s m1))) = true
     <-> s <> None).
Proof.
  intros supabase s m1 m2. destruct s as [s |]; simpl.
  - unfold bind. rewrite !fetchProfile_run.
    destruct (profiles_select supabase _) as [q | e]; simpl; [| discriminate].
    destruct (query_error q); simpl; [discriminate |].
    intros _. repeat split; intros; congruence.
  - intros _. repeat split; intros; congruence.
Qed.

(** Witness for X6: alice's session announced over two different states. *)
Lemma notification_overwrites_witness :
  auth (snd (onAuthStateChange (Scenario.serving Scenario.fresh_session)
               (Some Scenario.fresh_session) (Scenario.start initialAuthState)))
  = auth (snd (onAuthStateChange (Scenario.serving Scenario.fresh_session)
                 (Some Scenario.fresh_session)
                 (Scenario.start (with_error (Some "old failure") signedOutState)))).
Proof.
  refine (proj1 (notification_overwrites (Scenario.serving Scenario.fresh_session)
                   (Some Scenario.fresh_session) (Scenario.start initialAuthState)
                   (Scenario.start (with_error (Some "old failure") signedOutState))
                   _)).
  reflexivity.
Defined.

(** X7. [signIn] completes normally exactly when the provider answers with
    a session and no error and the profile fetch succeeds.  It then has
    sent the sign-in request followed by the fetch for the session's user
    id, and the state is the signed-in state with the session's user, the
    fetched row and the session. *)
Theorem signIn_success :
  forall supabase email password m,
    (forall r s q,
        auth_signInWithPassword supabase email password = Fulfilled r ->
        auth_error r = None -> auth_session r = Some s ->
        profiles_select supabase (user_id (session_user s)) = Fulfilled q ->
        query_error q = None ->
        signIn supabase email password m
        = (Normal tt,
           {| auth := signedInState (session_user s) (data q) s;
              requests := (requests m ++ [ReqSignInWithPassword email password])
                            ++ [ReqSelectProfile (user_id (session_user s))] |})) /\
    (fst (signIn supabase email password m) = Normal tt ->
     exists r s q,
       auth_signInWithPassword supabase email password = Fulfilled r /\
       auth_error r = None /\ auth_session r = Some s /\
       profiles_select supabase (user_id (session_user s)) = Fulfilled q /\
       query_error q = None).
Proof.
  intros supabase email password m. split.
  - intros r s q Hr He Hs Hq Hqe.
    unfold signIn, try_catch, bind. unfold await.
    rewrite Hr. simpl. rewrite He, Hs. simpl.
    rewrite fetchProfile_run, Hq, Hqe. reflexivity.
  - unfold signIn, try_catch, bind. unfold await.
    destruct (auth_signInWithPassword supabase email password) as [r | e] eqn:Er;
      simpl; [| discriminate].
    destruct (auth_error r) eqn:Ee; simpl; [discriminate |].
    destruct (auth_session r) as [s |] eqn:Es; simpl; [| discriminate].
    rewrite fetchProfile_run.
    destruct (profiles_select supabase _) as [q | e] eqn:Eq; simpl; [| discriminate].
    destruct (query_error q) eqn:Eqe; simpl; [discriminate |].
    intros _. exists r, s, q. auto.
Qed.

(** Witness for X7: alice signs in with the right password. *)
Lemma signIn_success_witness :
  signIn (Scenario.serving Scenario.fresh_session) "a@b.com" "validpass"
    (Scenario.start initialAuthState)
  = (Normal tt,
     {| auth := signedInState Scenario.alice (Some Scenario.alice_profile)
                              Scenario.fresh_session;
        requests := [ReqSignInWithPassword "a@b.com" "validpass";
                     ReqSelectProfile "u1"] |}).
Proof.
  refine (proj1 (signIn_success (Scenario.serving Scenario.fresh_session)
                   "a@b.com" "validpass" (Scenario.start initialAuthState))
            (mkAuthResponse (Some Scenario.alice) (Some Scenario.fresh_session) None)
            Scenario.fresh_session (mkSingle (Some Scenario.alice_profile) None)
            _ _ _ _ _);
    reflexivity.
Defined.

(** X8. Whenever [signUp] throws a value [e], the state is the previous
    one with [isAuthenticated] false and [error] set to the message of [e]
    if it is an [AuthError], to the generic registration message
    otherwise.  A provider answer without session and without error makes
    it throw the confirmation notice after the single sign-up request; as
    that notice is a plain [Error], the state shows the generic message
    and the notice reaches the caller only as the thrown value. *)
Theorem signUp_failure :
  forall supabase email password uname m,
    (forall e,
        fst (signUp supabase email password uname m) = Throw e ->
        auth (snd (signUp supabase email password uname m))
        = with_error_lowered (signUpMessage e) (auth m)) /\
    (forall r,
        auth_signUp supabase email password uname = Fulfilled r ->
        auth_error r = None -> auth_session r = None ->
        signUp supabase email password uname m
        = (Throw confirmation_required,
           with_auth
             (with_error_lowered "Registration failed. Please try again." (auth m))
             (logged (ReqSignUp email password uname) m))).
Proof.
  intros supabase email password uname m. split.
  - intros e. unfold signUp, try_catch, bind. unfold await.
    destruct (auth_signUp supabase email password uname) as [r | e0]; simpl.
    + destruct (auth_error r) as [e1 |]; simpl.
      * intros [= ->]. reflexivity.
      * destruct (auth_session r) as [s |]; simpl.
        -- destruct (auth_user r) as [u |]; simpl.
           ++ rewrite fetchProfile_run.
              destruct (profiles_select supabase _) as [q | e2]; simpl.
              ** destruct (query_error q); simpl.
                 --- intros [= ->]. reflexivity.
                 --- discriminate.
              ** intros [= ->]. reflexivity.
           ++ intros [= <-]. reflexivity.
        -- intros [= <-]. reflexivity.
    + intros [= ->]. reflexivity.
  - intros r Hr He Hs. async_unfold. rewrite Hr. simpl. rewrite He, Hs.
    reflexivity.
Qed.

(** Witness for X8: a provider that asks for an email confirmation. *)
Lemma signUp_failure_witness :
  error (auth (snd (signUp Scenario.sessionless "b@b.com" "secret1" "bob"
                      (Scenario.start signedOutState))))
  = Some "Registration failed. Please try again."
  /\ fst (signUp Scenario.sessionless "b@b.com" "secret1" "bob"
            (Scenario.start signedOutState))
     = Throw confirmation_required.
Proof.
  split.
  - rewrite (proj1 (signUp_failure Scenario.sessionless "b@b.com" "secret1" "bob"
                      (Scenario.start signedOutState)) confirmation_required).
    + reflexivity.
    + reflexivity.
  - rewrite (proj2 (signUp_failure Scenario.sessionless "b@b.com" "secret1" "bob"
                      (Scenario.start signedOutState))
               (mkAuthResponse (Some Scenario.alice) None None));
      reflexivity.
Defined.

(** X9. [signUp] completes normally exactly when the provider answers with
    a user and a session and no error and the profile fetch succeeds.  The
    profile is fetched for the id of the user of the answer, and that user,
    not the session's, becomes the identity of the signed-in state. *)
Theorem signUp_success :
  forall supabase email password uname m,
    (forall r u s q,
        auth_signUp supabase email password uname = Fulfilled r ->
        auth_error r = None -> auth_session r = Some s -> auth_user r = Some u ->
        profiles_select supabase (user_id u) = Fulfilled q ->
        query_error q = None ->
        signUp supabase email password uname m
        = (Normal tt,
           {| auth := signedInState u (data q) s;
              requests := (requests m ++ [ReqSignUp email password uname])
                            ++ [ReqSelectProfile (user_id u)] |})) /\
    (fst (signUp supabase email password uname m) = Normal tt ->
     exists r u s q,
       auth_signUp supabase email password uname = Fulfilled r /\
       auth_error r = None /\ auth_session r = Some s /\ auth_user r = Some u /\
       profiles_select supabase (user_id u) = Fulfilled q /\
       query_error q = None).
Proof.
  intros supabase email password uname m. split.
  - intros r u s q Hr He Hs Hu Hq Hqe.
    unfold signUp, try_catch, bind. unfold await.
    rewrite Hr. simpl. rewrite He, Hs, Hu. simpl.
    rewrite fetchProfile_run, Hq, Hqe. reflexivity.
  - unfold signUp, try_catch, bind. unfold await.
    destruct (auth_signUp supabase email password uname) as [r | e] eqn:Er;
      simpl; [| discriminate].
    destruct (auth_error r) eqn:Ee; simpl; [discriminate |].
    destruct (auth_session r) as [s |] eqn:Es; simpl; [| discriminate].
    destruct (auth_user r) as [u |] eqn:Eu; simpl; [| discriminate].
    rewrite fetchProfile_run.
    destruct (profiles_select supabase _) as [q | e] eqn:Eq; simpl; [| discriminate].
    destruct (query_error q) eqn:Eqe; simpl; [discriminate |].
    intros _. exists r, u, s, q. repeat split; auto.
Qed.

(** Witness for X9: a provider that signs the new user in at once. *)
Lemma signUp_success_witness :
  signUp (registering Scenario.fresh_session) "a@b.com" "secret1" "alice"
    (Scenario.start signedOutState)
  = (Normal tt,
     {| auth := signedInState Scenario.alice (Some Scenario.alice_profile)
                              Scenario.fresh_session;
        requests := [ReqSignUp "a@b.com" "secret1" "alice"; ReqSelectProfile "u1"] |}).
Proof.
  refine (proj1 (signUp_success (registering Scenario.fresh_session)
                   "a@b.com" "secret1" "alice" (Scenario.start signedOutState))
            (mkAuthResponse (Some Scenario.alice) (Some Scenario.fresh_session) None)
            Scenario.alice Scenario.fresh_session
            (mkSingle (Some Scenario.alice_profile) None) _ _ _ _ _ _);
    reflexivity.
Defined.



(* ===================================================================== *)
(** ** The protected route *)
(* ===================================================================== *)

Lemma error_shown_None st :
  error_shown st = None <-> error st = None \/ error st = Some "".
Proof.
  unfold error_shown. destruct (error st) as [[| c msg] |]; simpl; split;
    intros H; try reflexivity; try discriminate; auto.
  destruct H as [H | H]; discriminate.
Qed.

(** X11. The route renders its children exactly when the state is not
    loading, carries no error text (null or the empty string), has
    [isAuthenticated] true and holds a session that the expiry check does
    not report as expired. *)
Theorem ProtectedRoute_children_iff :
  forall now_ms st,
    ProtectedRoute now_ms st = Children <->
    loading st = false /\
    (error st = None \/ error st = Some "") /\
    isAuthenticated st = true /\
    exists s, session st = Some s /\ sessionExpired now_ms s = false.
Proof.
  intros now_ms st. rewrite <- error_shown_None. unfold ProtectedRoute.
  destruct (loading st); [split; [discriminate | intros [H _]; discriminate] |].
  destruct (error_shown st) as [msg |];
    [split; [discriminate | intros (_ & H & _); discriminate] |].
  destruct (isAuthenticated st);
    [| split; [discriminate | intros (_ & _ & H & _); discriminate]].
  destruct (session st) as [s |];
    [| split; [discriminate | intros (_ & _ & _ & s & H & _); discriminate]].
  destruct (sessionExpired now_ms s) eqn:E.
  - split; [discriminate |].
    intros (_ & _ & _ & s' & [= <-] & H). congruence.
  - split; [| reflexivity]. intros _. repeat split; auto. exists s. auto.
Qed.

Lemma sessionExpired_later now_ms later_ms s :
  now_ms <= later_ms ->
  sessionExpired now_ms s = true -> sessionExpired later_ms s = true.
Proof.
  intros Hle. unfold sessionExpired.
  destruct (expires_at s) as [e |]; [| discriminate].
  destruct (Z.eqb e 0); [discriminate |].
  intros H. apply Qle_bool_iff in H. apply Qle_bool_iff.
  pose proof (proj1 (Qle_seconds_millis e now_ms) H) as H'.
  apply Qle_seconds_millis. lia.
Qed.

(** X12. Time only takes access away: a session reported expired at one
    instant is reported expired at every later one, and a state for which
    the route renders its children at some instant renders them at every
    earlier one. *)
Theorem expiry_is_monotone :
  forall now_ms later_ms,
    now_ms <= later_ms ->
    (forall s, sessionExpired now_ms s = true -> sessionExpired later_ms s = true) /\
    (forall st, ProtectedRoute later_ms st = Children ->
                ProtectedRoute now_ms st = Children).
Proof.
  intros now_ms later_ms Hle. split.
  - intros s. apply sessionExpired_later. exact Hle.
  - intros st. unfold ProtectedRoute.
    destruct (loading st); [discriminate |].
    destruct (error_shown st); [discriminate |].
    destruct (isAuthenticated st); [| discriminate].
    destruct (session st) as [s |]; [| discriminate].
    destruct (sessionExpired now_ms s) eqn:E; [| reflexivity].
    rewrite (sessionExpired_later _ _ _ Hle E). discriminate.
Qed.

(** Witness for X12: the stale session, an hour apart. *)
Lemma expiry_is_monotone_witness :
  sessionExpired (Scenario.now_ms + 3600000) Scenario.stale_session = true.
Proof.
  refine (proj1 (expiry_is_monotone Scenario.now_ms (Scenario.now_ms + 3600000) _)
            Scenario.stale_session _).
  - unfold Scenario.now_ms. lia.
  - reflexivity.
Defined.

(** X13. After a [signIn] that threw [e] the route never renders its
    children, even if the state still holds the identity and an unexpired
    session of an earlier sign-in: it shows the spinner if the state was
    still loading, else the message written for [e] if that is not empty,
    else the redirect to the login page. *)
Theorem route_after_failed_signIn :
  forall supabase email password m e now_ms,
    fst (signIn supabase email password m) = Throw e ->
    ProtectedRoute now_ms (auth (snd (signIn supabase email password m)))
    = (if loading (auth m) then Spinner
       else if truthy_string (signInMessage e) then ErrorPanel (signInMessage e)
       else NavigateToLogin "Please sign in to access this page")
    /\ ProtectedRoute now_ms (auth (snd (signIn supabase email password m)))
       <> Children.
Proof.
  intros supabase email password m e now_ms H.
  rewrite (signIn_throw_state _ _ _ _ _ H).
  unfold ProtectedRoute, error_shown. simpl.
  destruct (loading (auth m)); [split; [reflexivity | discriminate] |].
  destruct (truthy_string (signInMessage e)); split;
    try reflexivity; discriminate.
Qed.

(** Witness for X13: alice, signed in, mistypes her password in a second
    sign-in. *)
Lemma route_after_failed_signIn_witness :
  ProtectedRoute Scenario.now_ms
    (auth (snd (signIn (Scenario.serving Scenario.fresh_session)
                  "a@b.com" "wrongpass"
                  (Scenario.start
                     (signedInState Scenario.alice (Some Scenario.alice_profile)
                                    Scenario.fresh_session)))))
  <> Children.
Proof.
  refine (proj2 (route_after_failed_signIn
                   (Scenario.serving Scenario.fresh_session)
                   "a@b.com" "wrongpass"
                   (Scenario.start
                      (signedInState Scenario.alice (Some Scenario.alice_profile)
                                     Scenario.fresh_session))
                   Scenario.invalid_credentials Scenario.now_ms _)).
  reflexivity.
Defined.

(** X14. Once the restore has run the route no longer shows the spinner,
    whatever the backend answered; and it renders its children only if
    the provider held a session that is not reported expired and the
    profile of its user could be fetched. *)
Theorem route_after_restore :
  forall supabase m now_ms,
    let st' := auth (snd (initializeAuth supabase m)) in
    ProtectedRoute now_ms st' <> Spinner /\
    (ProtectedRoute now_ms st' = Children ->
     exists r s q,
       auth_getSession supabase = Fulfilled r /\ gs_session r = Some s /\
       profiles_select supabase (user_id (session_user s)) = Fulfilled q /\
       query_error q = None /\
       sessionExpired now_ms s = false).
Proof.
  intros supabase m now_ms st'. subst st'.
  unfold initializeAuth, try_catch, bind. unfold await.
  assert (Hlow : forall st, loading st = false -> isAuthenticated st = false ->
                            ProtectedRoute now_ms st <> Spinner /\
                            ProtectedRoute now_ms st <> Children).
  { intros st Hl Ha. unfold ProtectedRoute. rewrite Hl, Ha.
    destruct (error_shown st); split; discriminate. }
  assert (Hfail : forall st (P : Prop),
             loading st = false -> isAuthenticated st = false ->
             ProtectedRoute now_ms st <> Spinner /\
             (ProtectedRoute now_ms st = Children -> P)).
  { intros st P Hl Ha. destruct (Hlow st Hl Ha) as [H1 H2].
    split; [exact H1 | intros H; contradiction]. }
  destruct (auth_getSession supabase) as [r | e] eqn:Eg; simpl;
    [| apply Hfail; reflexivity].
  destruct (gs_error r) eqn:Ee; simpl; [apply Hfail; reflexivity |].
  destruct (gs_session r) as [s |] eqn:Es; simpl; [| apply Hfail; reflexivity].
  rewrite fetchProfile_run.
  destruct (profiles_select supabase _) as [q | e] eqn:Ep; simpl;
    [| apply Hfail; reflexivity].
  destruct (query_error q) eqn:Eq; simpl; [apply Hfail; reflexivity |].
  unfold ProtectedRoute, error_shown. simpl.
  destruct (sessionExpired now_ms s) eqn:Ex; split; try discriminate.
  intros _. exists r, s, q. auto.
Qed.

(** Witness for X14: alice's session restored and still good. *)
Lemma route_after_restore_witness :
  exists r s q,
    auth_getSession (Scenario.serving Scenario.fresh_session) = Fulfilled r /\
    gs_session r = Some s /\
    profiles_select (Scenario.serving Scenario.fresh_session)
      (user_id (session_user s)) = Fulfilled q /\
    query_error q = None /\
    sessionExpired Scenario.now_ms s = false.
Proof.
  refine (proj2 (route_after_restore (Scenario.serving Scenario.fresh_session)
                   (Scenario.start initialAuthState) Scenario.now_ms) _).
  reflexivity.
Defined.

(* ===================================================================== *)
(** ** Creating and finding galleries *)
(* ===================================================================== *)

Lemma category_test_Matches category :
  Regex.test_anchored category_pattern category = true <->
  Regex.Matches category_pattern (list_ascii_of_string category).
Proof. apply RegexFacts.accepts_Matches. Qed.

(** [createGallery] on a category of the right format, path by path. *)
Lemma createGallery_run supabase name description category isPublic m :
  Regex.test_anchored category_pattern category = true ->
  createGallery supabase name description category isPublic m =
  let m1 := logged (ReqSelectGalleryId category) m in
  match galleries_select_id supabase category with
  | Rejected e => (Throw e, m1)
  | Fulfilled existing =>
      match data existing with
      | Some _ => (Throw (new_Error category_exists_message), m1)
      | None =>
          let m2 := logged ReqGetUser m1 in
          match auth_getUser supabase with
          | Rejected e => (Throw e, m2)
          | Fulfilled None => (Throw login_required, m2)
          | Fulfilled (Some u) =>
              let row := gallery_row u name description category isPublic in
              let m3 := logged (ReqInsertGallery row) m2 in
              match galleries_insert supabase row with
              | Rejected e => (Throw e, m3)
              | Fulfilled q => (insert_completion q, m3)
              end
          end
      end
  end.
Proof.
  intros Hf. unfold createGallery. rewrite Hf. simpl.
  unfold bind, try_catch, await, throw, ret, logged, insert_completion, gallery_row.
  simpl.
  destruct (galleries_select_id supabase category) as [ex | e]; [| reflexivity].
  destruct (data ex); [reflexivity |].
  destruct (auth_getUser supabase) as [[u |] | e]; try reflexivity.
  destruct (galleries_insert supabase _) as [q | e]; [| reflexivity].
  destruct (query_error q) as [e |]; [| reflexivity].
  destruct (err_code e) as [code |]; [| reflexivity].
  destruct (String.eqb code "23505"); reflexivity.
Qed.

(** X15. [createGallery] returns a row exactly when the category has the
    right format, the lookup by category delivers no row, a user is logged
    in and the insert is answered without error; the row returned is the
    one the insert delivered.  An error of the lookup itself is not looked
    at: the creation goes on as if no row existed. *)
Theorem createGallery_returns_iff :
  forall supabase name description category isPublic m g,
    fst (createGallery supabase name description category isPublic m) = Normal g <->
    Regex.Matches category_pattern (list_ascii_of_string category) /\
    exists existing u q,
      galleries_select_id supabase category = Fulfilled existing /\
      data existing = None /\
      auth_getUser supabase = Fulfilled (Some u) /\
      galleries_insert supabase (gallery_row u name description category isPublic)
      = Fulfilled q /\
      query_error q = None /\ g = data q.
Proof.
  intros supabase name description category isPublic m g.
  destruct (Regex.test_anchored category_pattern category) eqn:Hf.
  - rewrite (createGallery_run _ _ _ _ _ _ Hf). simpl.
    apply category_test_Matches in Hf.
    destruct (galleries_select_id supabase category) as [ex | e] eqn:Ex; simpl.
    + destruct (data ex) eqn:Ed; simpl.
      * split; [discriminate |].
        intros (_ & ex' & u & q & [= <-] & Hd & _). congruence.
      * destruct (auth_getUser supabase) as [[u |] | e] eqn:Eu; simpl.
        -- destruct (galleries_insert supabase _) as [q | e] eqn:Ei; simpl.
           ++ unfold insert_completion.
              destruct (query_error q) as [e |] eqn:Eq.
              ** split.
                 --- destruct (err_code e) as [code |];
                       [destruct (String.eqb code "23505") |]; discriminate.
                 --- intros (_ & ex' & u' & q' & _ & _ & [= <-] & Hi & Hq & _).
                     rewrite Ei in Hi. injection Hi as <-. congruence.
              ** split.
                 --- intros [= <-]. split; [exact Hf |].
                     exists ex, u, q. repeat split; assumption.
                 --- intros (_ & ex' & u' & q' & _ & _ & [= <-] & Hi & _ & ->).
                     rewrite Ei in Hi. injection Hi as <-. reflexivity.
           ++ split; [discriminate |].
              intros (_ & ex' & u' & q' & _ & _ & [= <-] & Hi & _).
              rewrite Ei in Hi. discriminate.
        -- split; [discriminate |].
           intros (_ & ex' & u' & q' & _ & _ & Hu & _). discriminate.
        -- split; [discriminate |].
           intros (_ & ex' & u' & q' & _ & _ & Hu & _). discriminate.
    + split; [discriminate |].
      intros (_ & ex' & u & q & Hx & _). discriminate.
  - split.
    + unfold createGallery. rewrite Hf. simpl. discriminate.
    + intros [Hm _]. apply category_test_Matches in Hm. congruence.
Qed.

(** X16. [createGallery] never writes the state cell, and it sends the
    lookup, then the user query, then the insert, stopping at the first
    step that makes it throw.  A category of the wrong format: it throws
    with nothing sent.  The lookup rejected, or a row found: it throws
    with the lookup alone in the log.  No row found and the user query
    rejected or without user: it throws with the lookup and the user
    query in the log, and no insert.  No row found and a user logged in:
    the log is the lookup, the user query and the insert of a row with
    that user's id and the arguments as given, whatever the insert
    answers. *)
Theorem createGallery_requests :
  forall supabase name description category isPublic m,
    let res := createGallery supabase name description category isPublic m in
    let sent := fun l => (requests m ++ l)%list in
    auth (snd res) = auth m /\
    (~ Regex.Matches category_pattern (list_ascii_of_string category) ->
     (exists e, fst res = Throw e) /\ requests (snd res) = requests m) /\
    (Regex.Matches category_pattern (list_ascii_of_string category) ->
     (forall e,
         galleries_select_id supabase category = Rejected e ->
         fst res = Throw e /\
         requests (snd res) = sent [ReqSelectGalleryId category]) /\
     (forall existing,
         galleries_select_id supabase category = Fulfilled existing ->
         (data existing <> None ->
          fst res = Throw (new_Error category_exists_message) /\
          requests (snd res) = sent [ReqSelectGalleryId category]) /\
         (data existing = None ->
          (forall e,
              auth_getUser supabase = Rejected e ->
              fst res = Throw e /\
              requests (snd res) = sent [ReqSelectGalleryId category; ReqGetUser]) /\
          (auth_getUser supabase = Fulfilled None ->
           fst res = Throw login_required /\
           requests (snd res) = sent [ReqSelectGalleryId category; ReqGetUser]) /\
          (forall u,
              auth_getUser supabase = Fulfilled (Some u) ->
              requests (snd res)
              = sent [ReqSelectGalleryId category; ReqGetUser;
                      ReqInsertGallery
                        (gallery_row u name description category isPublic)])))).
Proof.
  intros supabase name description category isPublic m. simpl.
  assert (H2 : ((requests m ++ [ReqSelectGalleryId category]) ++ [ReqGetUser]
                = requests m ++ [ReqSelectGalleryId category; ReqGetUser])%list).
  { rewrite <- app_assoc. reflexivity. }
  assert (H3 : forall row,
             (((requests m ++ [ReqSelectGalleryId category]) ++ [ReqGetUser])
                ++ [ReqInsertGallery row]
              = requests m
                  ++ [ReqSelectGalleryId category; ReqGetUser; ReqInsertGallery row])%list).
  { intros row. rewrite <- !app_assoc. reflexivity. }
  destruct (Regex.test_anchored category_pattern category) eqn:Hf.
  - rewrite (createGallery_run _ _ _ _ _ _ Hf). simpl.
    apply category_test_Matches in Hf.
    split; [| split; [intros Hn; contradiction |]].
    + destruct (galleries_select_id supabase category) as [ex | e]; [| reflexivity].
      destruct (data ex); [reflexivity |].
      destruct (auth_getUser supabase) as [[u |] | e]; try reflexivity.
      destruct (galleries_insert supabase _); reflexivity.
    + intros _. split.
      * intros e ->. split; reflexivity.
      * intros existing ->. split.
        -- intros Hd. destruct (data existing); [| congruence].
           split; reflexivity.
        -- intros ->. split; [| split].
           ++ intros e ->. simpl. split; [reflexivity | exact H2].
           ++ intros ->. simpl. split; [reflexivity | exact H2].
           ++ intros u ->.
              destruct (galleries_insert supabase _); simpl; apply H3.
  - unfold createGallery. rewrite Hf. simpl.
    split; [reflexivity |]. split.
    + intros _. split; [eexists; reflexivity | reflexivity].
    + intros Hm. apply category_test_Matches in Hm. congruence.
Qed.

(** Witness for X16: every category is taken, so the lookup is the only
    request; and a creation that goes through to the insert. *)
Lemma createGallery_requests_witness :
  requests (snd (createGallery crowded "Cats" "Cat videos" "cats" true
                   (Scenario.start signedOutState)))
  = [ReqSelectGalleryId "cats"]
  /\ requests (snd (createGallery (registering Scenario.fresh_session)
                      "Cats" "Cat videos" "cats" true
                      (Scenario.start signedOutState)))
     = [ReqSelectGalleryId "cats"; ReqGetUser;
        ReqInsertGallery (gallery_row Scenario.alice "Cats" "Cat videos" "cats" true)].
Proof.
  assert (Hm : Regex.Matches category_pattern (list_ascii_of_string "cats")).
  { apply category_test_Matches. reflexivity. }
  split.
  - refine (proj2 (proj1 (proj2 (proj2 (proj2
              (createGallery_requests crowded "Cats" "Cat videos" "cats" true
                 (Scenario.start signedOutState))) Hm)
              (mkSingle (Some "g0") None) eq_refl) _)).
    discriminate.
  - refine (proj2 (proj2 (proj2 (proj2 (proj2 (proj2
              (createGallery_requests (registering Scenario.fresh_session)
                 "Cats" "Cat videos" "cats" true
                 (Scenario.start signedOutState))) Hm)
              (mkSingle None None) eq_refl) eq_refl)) Scenario.alice eq_refl).
Defined.

(** X17. For a category of the right format the refusals come in this
    order.  A row found by the lookup makes [createGallery] throw the
    duplicate-category error after that single request, logged in or not.
    With no row found and no user logged in it throws the login error
    after the user query.  In neither case is an insert sent. *)
Theorem createGallery_refusals :
  forall supabase name description category isPublic m existing,
    Regex.Matches category_pattern (list_ascii_of_string category) ->
    galleries_select_id supabase category = Fulfilled existing ->
    (forall id, data existing = Some id ->
        createGallery supabase name description category isPublic m
        = (Throw (new_Error category_exists_message),
           logged (ReqSelectGalleryId category) m)) /\
    (data existing = None -> auth_getUser supabase = Fulfilled None ->
     createGallery supabase name description category isPublic m
     = (Throw login_required,
        logged ReqGetUser (logged (ReqSelectGalleryId category) m))).
Proof.
  intros supabase name description category isPublic m existing Hm Hx.
  apply category_test_Matches in Hm.
  rewrite (createGallery_run _ _ _ _ _ _ Hm), Hx. simpl. split.
  - intros id ->. reflexivity.
  - intros -> ->. reflexivity.
Qed.

(** Witness for X17: every category is taken. *)
Lemma createGallery_refusals_witness :
  createGallery crowded "Cats" "Cat videos" "cats" true
    (Scenario.start signedOutState)
  = (Throw (new_Error category_exists_message),
     logged (ReqSelectGalleryId "cats") (Scenario.start signedOutState)).
Proof.
  refine (proj1 (createGallery_refusals crowded "Cats" "Cat videos" "cats" true
                   (Scenario.start signedOutState) (mkSingle (Some "g0") None) _ _)
            "g0" _).
  - apply category_test_Matches. reflexivity.
  - reflexivity.
  - reflexivity.
Defined.

(** X18. When the insert is answered with an error, a unique-violation
    (code '23505') is replaced by the same duplicate-category error that
    the lookup path throws, and the store's own error is dropped; an error
    with any other code, or without code, is thrown as it is. *)
Theorem createGallery_insert_error :
  forall supabase name description category isPublic m existing u q e,
    Regex.Matches category_pattern (list_ascii_of_string category) ->
    galleries_select_id supabase category = Fulfilled existing ->
    data existing = None ->
    auth_getUser supabase = Fulfilled (Some u) ->
    galleries_insert supabase (gallery_row u name description category isPublic)
    = Fulfilled q ->
    query_error q = Some e ->
    (err_code e = Some "23505" ->
     fst (createGallery supabase name description category isPublic m)
     = Throw (new_Error category_exists_message)) /\
    (err_code e <> Some "23505" ->
     fst (createGallery supabase name description category isPublic m) = Throw e).
Proof.
  intros supabase name description category isPublic m existing u q e
         Hm Hx Hd Hu Hi He.
  apply category_test_Matches in Hm.
  rewrite (createGallery_run _ _ _ _ _ _ Hm), Hx. simpl.
  rewrite Hd, Hu, Hi. simpl. unfold insert_completion. rewrite He. split.
  - intros ->. reflexivity.
  - intros Hc. destruct (err_code e) as [code |]; [| reflexivity].
    destruct (String.eqb_spec code "23505") as [-> | Hne];
      [congruence | reflexivity].
Qed.

(** Witness for X18: the lookup misses a row that the insert then hits. *)
Lemma createGallery_insert_error_witness :
  fst (createGallery racing "Cats" "Cat videos" "cats" true
         (Scenario.start signedOutState))
  = Throw (new_Error category_exists_message).
Proof.
  refine (proj1 (createGallery_insert_error racing "Cats" "Cat videos" "cats" true
                   (Scenario.start signedOutState)
                   (mkSingle None (Some Scenario.no_rows)) Scenario.alice
                   (mkSingle None
                      (Some {| err_class := IsPlainObject;
                               err_message := "duplicate key value violates unique constraint";
                               err_code := Some "23505" |}))
                   _ _ _ _ _ _ _) _).
  - apply category_test_Matches. reflexivity.
  - reflexivity.
  - reflexivity.
  - reflexivity.
  - reflexivity.
  - reflexivity.
  - reflexivity.
Defined.

(** X19. [getGalleryByCategory] sends one request and does not write the
    state cell.  It returns exactly when the store answers without error,
    and then with the data delivered, or with an error of code
    'PGRST116', and then with null. *)
Theorem getGalleryByCategory_returns_iff :
  forall supabase category m g,
    snd (getGalleryByCategory supabase category m)
    = logged (ReqSelectGallery category) m /\
    (fst (getGalleryByCategory supabase category m) = Normal g <->
     exists q,
       galleries_select supabase category = Fulfilled q /\
       ((query_error q = None /\ g = data q) \/
        (exists e, query_error q = Some e /\
                   err_code e = Some "PGRST116" /\ g = None))).
Proof.
  intros supabase category m g.
  unfold getGalleryByCategory, bind, await, ret, throw, logged.
  destruct (galleries_select supabase category) as [q | e0] eqn:Es; simpl.
  - destruct (query_error q) as [e |] eqn:Eq; simpl.
    + destruct (err_code e) as [code |] eqn:Ec; simpl.
      * destruct (String.eqb_spec code "PGRST116") as [-> | Hne]; simpl.
        -- split; [reflexivity |]. split.
           ++ intros [= <-]. exists q. split; [reflexivity |].
              right. exists e. auto.
           ++ intros (q' & [= <-] & [[H _] | (e' & _ & _ & ->)]);
                [congruence | reflexivity].
        -- split; [reflexivity |]. split; [discriminate |].
           intros (q' & [= <-] & [[H _] | (e' & He & Hc & _)]); congruence.
      * split; [reflexivity |]. split; [discriminate |].
        intros (q' & [= <-] & [[H _] | (e' & He & Hc & _)]); congruence.
    + split; [reflexivity |]. split.
      * intros [= <-]. exists q. auto.
      * intros (q' & [= <-] & [[_ ->] | (e' & He & _)]);
          [reflexivity | congruence].
  - split; [reflexivity |]. split; [discriminate |].
    intros (q' & H & _). discriminate.
Qed.

(* ===================================================================== *)
(** ** The gallery form *)
(* ===================================================================== *)

(** X20. [validateForm] accepts the form exactly when the name and the
    category have at least three code units and the category is in the
    language of [[a-z0-9-]+]; it then leaves the page as it is.  When it
    rejects, it sets the page error to the message of the first check
    that failed, in the order name length, category length, category
    format, and changes nothing else. *)
Theorem validateForm_accepts_iff :
  forall p,
    (fst (validateForm p) = true <->
     (3 <= String.length (form_name (formData p)))%nat /\
     (3 <= String.length (form_category (formData p)))%nat /\
     Regex.Matches category_pattern
       (list_ascii_of_string (form_category (formData p)))) /\
    (fst (validateForm p) = true -> snd (validateForm p) = p) /\
    (fst (validateForm p) = false ->
     snd (validateForm p)
     = setError
         (Some (if (String.length (form_name (formData p)) <? 3)%nat
                then name_length_message
                else if (String.length (form_category (formData p)) <? 3)%nat
                then category_length_message
                else category_format_message)) p).
Proof.
  intros p. unfold validateForm.
  destruct (Nat.ltb_spec (String.length (form_name (formData p))) 3) as [Hn | Hn];
    simpl.
  - split; [| split]; try discriminate; try reflexivity.
    split; [discriminate | intros (H & _); lia].
  - destruct (Nat.ltb_spec (String.length (form_category (formData p))) 3)
      as [Hc | Hc]; simpl.
    + split; [| split]; try discriminate; try reflexivity.
      split; [discriminate | intros (_ & H & _); lia].
    + destruct (Regex.test_anchored category_pattern (form_category (formData p)))
        eqn:Hf; simpl.
      * split; [| split]; try discriminate; try reflexivity.
        split; [| reflexivity]. intros _. repeat split; try assumption.
        apply category_test_Matches. exact Hf.
      * split; [| split]; try discriminate; try reflexivity.
        split; [discriminate |]. intros (_ & _ & H).
        apply category_test_Matches in H. congruence.
Qed.

(** Witness for X20: a form with a category in capitals. *)
Lemma validateForm_accepts_iff_witness :
  snd (validateForm {| formData := mkFormData "Cats" "Cat videos" "Cats" true;
                       page_error := None; isLoading := false;
                       navigated := None |})
  = {| formData := mkFormData "Cats" "Cat videos" "Cats" true;
       page_error := Some category_format_message; isLoading := false;
       navigated := None |}.
Proof.
  rewrite (proj2 (proj2 (validateForm_accepts_iff
                           {| formData := mkFormData "Cats" "Cat videos" "Cats" true;
                              page_error := None; isLoading := false;
                              navigated := None |}))).
  - reflexivity.
  - reflexivity.
Defined.

(** X21. A form that [validateForm] rejects is not submitted:
    [handleSubmit] sends no request, does not navigate, leaves
    [isLoading] and the form data alone, and its only effect is the
    validation message in the page error. *)
Theorem handleSubmit_rejected_form :
  forall supabase toLowerCase p m,
    fst (validateForm p) = false ->
    let res := handleSubmit supabase toLowerCase p m in
    snd res = m /\
    navigated (fst res) = navigated p /\
    isLoading (fst res) = isLoading p /\
    formData (fst res) = formData p /\
    (page_error (fst res) = Some name_length_message \/
     page_error (fst res) = Some category_length_message \/
     page_error (fst res) = Some category_format_message).
Proof.
  intros supabase toLowerCase p m. unfold handleSubmit, validateForm.
  destruct (String.length (form_name (formData p)) <? 3)%nat; simpl;
    [intros _; repeat split; auto |].
  destruct (String.length (form_category (formData p)) <? 3)%nat; simpl;
    [intros _; repeat split; auto |].
  destruct (Regex.test_anchored category_pattern (form_category (formData p)));
    simpl; [discriminate |].
  intros _. repeat split; auto.
Qed.

(** Witness for X21: a two-letter name. *)
Lemma handleSubmit_rejected_form_witness :
  snd (handleSubmit Scenario.offline lower_string
         {| formData := mkFormData "ab" "" "cats" true; page_error := None;
            isLoading := false; navigated := None |}
         (Scenario.start signedOutState))
  = Scenario.start signedOutState.
Proof.
  refine (proj1 (handleSubmit_rejected_form Scenario.offline lower_string
                   {| formData := mkFormData "ab" "" "cats" true;
                      page_error := None; isLoading := false; navigated := None |}
                   (Scenario.start signedOutState) _)).
  reflexivity.
Defined.

Lemma lower_ascii_fixes_class c :
  Regex.in_class category_class c = true -> lower_ascii c = c.
Proof.
  destruct c as [[] [] [] [] [] [] [] []]; vm_compute; intros H;
    first [reflexivity | discriminate].
Qed.

Lemma lower_string_fixes_category s :
  Regex.Matches category_pattern (list_ascii_of_string s) -> lower_string s = s.
Proof.
  intros H. apply category_pattern_language in H. destruct H as [_ H].
  induction s as [| c s IH]; simpl in *; [reflexivity |].
  inversion H; subst.
  rewrite lower_ascii_fixes_class by assumption.
  rewrite IH by assumption. reflexivity.
Qed.

Lemma validateForm_accepted p :
  fst (validateForm p) = true ->
  validateForm p = (true, p) /\
  Regex.Matches category_pattern
    (list_ascii_of_string (form_category (formData p))).
Proof.
  unfold validateForm.
  destruct (String.length (form_name (formData p)) <? 3)%nat; [discriminate |].
  destruct (String.length (form_category (formData p)) <? 3)%nat; [discriminate |].
  destruct (Regex.test_anchored category_pattern (form_category (formData p)))
    eqn:Hf; simpl; [| discriminate].
  intros _. split; [reflexivity | apply category_test_Matches; exact Hf].
Qed.

(** X22. For a form that [validateForm] accepts, and a [toLowerCase] that
    leaves strings over lowercase letters, digits and hyphens as they
    are, [handleSubmit] calls [createGallery] with the fields of the form
    as typed; the format check of [createGallery] passes, so the first
    request is the lookup of the form's category.  Whatever the outcome,
    [isLoading] is false at the end and the form data are unchanged.  If
    [createGallery] returns, the page navigates to the gallery list with
    no error; if it throws, the page stays and shows the message of the
    thrown value, or the generic text if that is not an [Error]. *)
Theorem handleSubmit_accepted_form :
  forall supabase toLowerCase p m,
    (forall s, Regex.Matches category_pattern (list_ascii_of_string s) ->
               toLowerCase s = s) ->
    fst (validateForm p) = true ->
    let call := createGallery supabase (form_name (formData p))
                  (form_description (formData p)) (form_category (formData p))
                  (form_isPublic (formData p)) m in
    let res := handleSubmit supabase toLowerCase p m in
    snd res = snd call /\
    (exists rest,
        requests (snd res)
        = (requests m ++ ReqSelectGalleryId (form_category (formData p)) :: rest)%list) /\
    isLoading (fst res) = false /\
    formData (fst res) = formData p /\
    (forall g, fst call = Normal g ->
               navigated (fst res) = Some "/dashboard/galleries" /\
               page_error (fst res) = None) /\
    (forall err, fst call = Throw err ->
                 navigated (fst res) = navigated p /\
                 page_error (fst res) = Some (submitMessage err)).
Proof.
  intros supabase toLowerCase p m Hlow Hv.
  destruct (validateForm_accepted p Hv) as [Hp Hm].
  simpl. unfold handleSubmit. rewrite Hp, (Hlow _ Hm). simpl.
  assert (Hreq : exists rest,
             requests (snd (createGallery supabase (form_name (formData p))
                              (form_description (formData p))
                              (form_category (formData p))
                              (form_isPublic (formData p)) m))
             = (requests m ++ ReqSelectGalleryId (form_category (formData p)) :: rest)%list).
  { rewrite (createGallery_run _ _ _ _ _ _ (proj2 (category_test_Matches _) Hm)).
    simpl. unfold logged.
    destruct (galleries_select_id supabase _) as [ex | e]; simpl;
      [| exists []; reflexivity].
    destruct (data ex); simpl; [exists []; reflexivity |].
    destruct (auth_getUser supabase) as [[u |] | e]; simpl;
      try (exists [ReqGetUser]; rewrite <- app_assoc; reflexivity).
    destruct (galleries_insert supabase _) as [q | e]; simpl;
      eexists; rewrite <- !app_assoc; reflexivity. }
  destruct (createGallery supabase (form_name (formData p))
              (form_description (formData p)) (form_category (formData p))
              (form_isPublic (formData p)) m) as [[g | err] m'] eqn:Ec; simpl in *.
  - split; [reflexivity |]. split; [exact Hreq |].
    split; [reflexivity |]. split; [reflexivity |]. split.
    + intros g' _. split; reflexivity.
    + intros err. discriminate.
  - split; [reflexivity |]. split; [exact Hreq |].
    split; [reflexivity |]. split; [reflexivity |]. split.
    + intros g. discriminate.
    + intros err' [= <-]. split; reflexivity.
Qed.

(** Witness for X22: alice creates the gallery "cats". *)
Lemma handleSubmit_accepted_form_witness :
  navigated
    (fst (handleSubmit (registering Scenario.fresh_session) lower_string
            {| formData := mkFormData "Cats" "Cat videos" "cats" true;
               page_error := Some "stale"; isLoading := false; navigated := None |}
            (Scenario.start signedOutState)))
  = Some "/dashboard/galleries".
Proof.
  refine (proj1 (proj1 (proj2 (proj2 (proj2 (proj2
            (handleSubmit_accepted_form (registering Scenario.fresh_session)
               lower_string
               {| formData := mkFormData "Cats" "Cat videos" "cats" true;
                  page_error := Some "stale"; isLoading := false;
                  navigated := None |}
               (Scenario.start signedOutState) _ _)))))
            (Some (mkGallery "g1" "u1" "Cats" "Cat videos" "cats" true)) _)).
  - exact lower_string_fixes_category.
  - reflexivity.
  - reflexivity.
Defined.

(** X23. The category check [/^[a-z0-9-]+$/] accepts exactly the strings
    that are not empty and consist of code units 97 to 122 (a to z), 48 to
    57 (0 to 9) and 45 (the hyphen). *)
Theorem category_format_accepts_iff :
  forall s,
    Regex.test_anchored category_pattern s = true <->
    s <> "" /\
    forall c, In c (list_ascii_of_string s) ->
              let n := nat_of_ascii c in
              (97 <= n <= 122 \/ 48 <= n <= 57 \/ n = 45)%nat.
Proof.
  assert (Hc : forall c,
             Regex.in_class category_class c = true <->
             (97 <= nat_of_ascii c <= 122 \/ 48 <= nat_of_ascii c <= 57
              \/ nat_of_ascii c = 45)%nat).
  { intros c. unfold Regex.in_class, Regex.in_range, category_class.
    cbn [existsb fst snd].
    change (nat_of_ascii "a") with 97%nat. change (nat_of_ascii "z") with 122%nat.
    change (nat_of_ascii "0") with 48%nat. change (nat_of_ascii "9") with 57%nat.
    change (nat_of_ascii "-") with 45%nat.
    rewrite orb_false_r, !orb_true_iff, !andb_true_iff, !Nat.leb_le. lia. }
  intros s. rewrite category_test_closed_form, andb_true_iff, forallb_forall.
  split.
  - intros [Ht Hall]. split.
    + destruct s; [discriminate | discriminate].
    + intros c Hin. apply Hc. apply Hall. exact Hin.
  - intros [Hne Hall]. split.
    + destruct s; [congruence | reflexivity].
    + intros c Hin. apply Hc. apply Hall. exact Hin.
Qed.

(** X24. A failed [signOut] or [updateProfile] leaves no trace but the
    error text: [clearError] run after it gives the state from before the
    failure with [error] null. *)
Theorem clearError_after_failure :
  forall supabase m e,
    (fst (signOut supabase m) = Throw e ->
     auth (snd (clearError (snd (signOut supabase m)))) = with_error None (auth m)) /\
    (forall updates,
        fst (updateProfile supabase updates m) = Throw e ->
        auth (snd (clearError (snd (updateProfile supabase updates m))))
        = with_error None (auth m)).
Proof.
  intros supabase m e. split.
  - unfold signOut, try_catch, bind, await, clearError, setAuthState, throw.
    destruct (auth_signOut supabase) as [[e0 |] | e0]; simpl;
      first [discriminate | intros _; reflexivity].
  - intros updates.
    unfold updateProfile, bind, readAuthState, clearError, setAuthState, throw.
    destruct (user (auth m)) as [u |]; simpl; [| intros _; reflexivity].
    unfold try_catch, bind, await.
    destruct (profiles_update supabase updates (user_id u)) as [q | e0]; simpl;
      [| intros _; reflexivity].
    destruct (query_error q); simpl; first [discriminate | intros _; reflexivity].
Qed.

(** Witness for X24: the provider is unreachable while alice signs out. *)
Lemma clearError_after_failure_witness :
  auth (snd (clearError
               (snd (signOut Scenario.offline
                       (Scenario.start
                          (signedInState Scenario.alice (Some Scenario.alice_profile)
                                         Scenario.fresh_session))))))
  = signedInState Scenario.alice (Some Scenario.alice_profile) Scenario.fresh_session.
Proof.
  refine (proj1 (clearError_after_failure Scenario.offline
                   (Scenario.start
                      (signedInState Scenario.alice (Some Scenario.alice_profile)
                                     Scenario.fresh_session))
                   Scenario.network_down) _).
  reflexivity.
Defined.
